(** * dflow/slurm.py: Slurm executors of dflow

    A shallow embedding of [src/dflow/slurm.py]: the resource manifest of a
    Slurm job ([SlurmJob]), the rewriting of a template into a
    prepare / run / collect pipeline ([SlurmJobTemplate.render]) and the
    submission script of the SSH executor ([SlurmRemoteExecutor]).

    Python strings are [string]s, dictionaries are insertion-ordered
    association lists with unique keys, [None] is [None], and an exception
    is a value of [result]. *)

From Stdlib Require Import String Ascii List ZArith Lia Bool Arith.
From Stdlib Require Import DecimalString.
From Equations Require Import Equations.
From Equations.Prop Require Import Logic.
Import ListNotations.
Open Scope string_scope.

(** ** Python strings *)

Module Py.

(** The characters a Rocq string literal cannot hold as they are. *)
Definition nl : string := String "010"%char EmptyString.
Definition dq : string := String "034"%char EmptyString.

(** [sep.join(xs)]. *)
Definition join (sep : string) (xs : list string) : string :=
  String.concat sep xs.

(** ["%s" % x] for an optional string: [None] prints as [None]. *)
Definition str_opt (x : option string) : string :=
  match x with
  | Some s => s
  | None => "None"
  end.

(** ["%s" % n] for an [int]. *)
Definition str_int (n : Z) : string :=
  NilEmpty.string_of_int (Z.to_int n).

(** [s[:n]]. *)
Definition slice_to (n : nat) (s : string) : string := substring 0 n s.

(** [needle in hay]. *)
Fixpoint contains (needle hay : string) : bool :=
  prefix needle hay
  || match hay with
     | EmptyString => false
     | String _ hay' => contains needle hay'
     end.

(** [s.split("\n")], on the characters of [s]; [cur] is the line being
    read, reversed. *)
Fixpoint split_lines (cur : list ascii) (s : list ascii) : list string :=
  match s with
  | [] => [string_of_list_ascii (rev cur)]
  | c :: s' =>
      if Ascii.eqb c "010"%char
      then string_of_list_ascii (rev cur) :: split_lines [] s'
      else split_lines (c :: cur) s'
  end.

Definition lines (s : string) : list string :=
  split_lines [] (list_ascii_of_string s).

(** [s.rstrip("/")], on the reversed characters of [s]. *)
Fixpoint drop_slashes (r : list ascii) : list ascii :=
  match r with
  | c :: r' => if Ascii.eqb c "/"%char then drop_slashes r' else r
  | [] => []
  end.

(** [p[:p.rfind("/") + 1]], on the reversed characters of [p]. *)
Fixpoint upto_last_slash (r : list ascii) : list ascii :=
  match r with
  | c :: r' => if Ascii.eqb c "/"%char then r else upto_last_slash r'
  | [] => []
  end.

(** [posixpath.dirname]:
<<
    i = p.rfind(sep) + 1
    head = p[:i]
    if head and head != sep*len(head):
        head = head.rstrip(sep)
    return head
>> *)
Definition dirname (p : string) : string :=
  let head := upto_last_slash (rev (list_ascii_of_string p)) in
  match drop_slashes head with
  | [] => string_of_list_ascii (rev head)
  | stripped => string_of_list_ascii (rev stripped)
  end.

End Py.

(** ** Python dictionaries

    Insertion ordered, one entry per key: [d[k] = v] overwrites the value
    of an existing key in place and appends a new key at the end. *)

Module Dict.

Definition t (V : Type) : Type := list (string * V).

Definition empty {V : Type} : t V := [].

Fixpoint set {V : Type} (d : t V) (k : string) (v : V) : t V :=
  match d with
  | [] => [(k, v)]
  | (k', v') :: d' =>
      if String.eqb k' k then (k', v) :: d' else (k', v') :: set d' k v
  end.

Fixpoint get {V : Type} (d : t V) (k : string) : option V :=
  match d with
  | [] => None
  | (k', v') :: d' => if String.eqb k' k then Some v' else get d' k
  end.

Definition keys {V : Type} (d : t V) : list string := map fst d.

Definition values {V : Type} (d : t V) : list V := map snd d.

(** [bool(d)]. *)
Definition truthy {V : Type} (d : t V) : bool :=
  match d with
  | [] => false
  | _ :: _ => true
  end.

(** [for k in src: d[k] = f(k)], the loop that fills [d]. *)
Definition set_each {V W : Type} (f : string -> W) (src : t V) (d : t W)
  : t W :=
  fold_left (fun acc k => set acc k (f k)) (keys src) d.

(** A dictionary as Python can hold it: no key twice. *)
Definition wf {V : Type} (d : t V) : Prop := NoDup (keys d).

End Dict.

(** ** Exceptions *)

Inductive exn : Type :=
| TypeError
| KeyError (k : string).

Inductive result (A : Type) : Type :=
| Ok (a : A)
| Raise (e : exn).
Arguments Ok {A} a.
Arguments Raise {A} e.

Definition bind {A B : Type} (r : result A) (k : A -> result B) : result B :=
  match r with
  | Ok a => k a
  | Raise e => Raise e
  end.

Notation "x <- r ;; k" := (bind r (fun x => k))
  (at level 61, r at next level, right associativity).

(** ** The workflow classes the module builds on

    [dflow.io], [dflow.op_template], [dflow.step] and [dflow.steps] are
    imported by [slurm.py]; the records below hold the attributes that
    [slurm.py] reads and writes. *)

(** Modelled from the spec: [InputParameter], [InputArtifact],
    [OutputParameter] and [OutputArtifact] of [dflow.io], with the keyword
    arguments [slurm.py] passes to them; an argument left out is [None]. *)
Record InputParameter : Type := mkInputParameter {
  ip_name : option string;
  ip_value : option string
}.

Record InputArtifact : Type := mkInputArtifact {
  ia_name : option string;
  ia_path : option string
}.

Record OutputParameter : Type := mkOutputParameter {
  op_name : option string;
  op_value : option string;
  op_value_from_path : option string;
  op_value_from_parameter : option string
}.

Record OutputArtifact : Type := mkOutputArtifact {
  oa_name : option string;
  oa_path : option string;
  oa_from : option string
}.

(** Modelled from the spec: the [inputs] and [outputs] of a template, each
    an ordered mapping from names to declarations. *)
Record Inputs : Type := mkInputs {
  in_parameters : Dict.t InputParameter;
  in_artifacts : Dict.t InputArtifact
}.

Record Outputs : Type := mkOutputs {
  out_parameters : Dict.t OutputParameter;
  out_artifacts : Dict.t OutputArtifact
}.

Definition no_inputs : Inputs := mkInputs Dict.empty Dict.empty.
Definition no_outputs : Outputs := mkOutputs Dict.empty Dict.empty.

(** Modelled from the spec: the Template Descriptor that [render] and
    [get_manifest] consume: a name, the four ordered maps, the script and
    the command (a list of tokens). *)
Record Template : Type := mkTemplate {
  t_name : string;
  t_inputs : Inputs;
  t_outputs : Outputs;
  t_script : string;
  t_command : list string
}.

(** [V1Volume] with a [V1HostPathVolumeSource], and [V1VolumeMount]. *)
Record V1Volume : Type := mkV1Volume {
  vol_name : string;
  vol_host_path : string;
  vol_host_path_type : string
}.

Record V1VolumeMount : Type := mkV1VolumeMount {
  mnt_name : string;
  mnt_mount_path : string
}.

(** ** SlurmJob *)

(** The [mount] entry of the [prepare] and [results] stanzas. *)
Record HostPathMount : Type := mkHostPathMount {
  hpm_name : string;
  hpm_path : string;
  hpm_type : string
}.

Record PrepareStanza : Type := mkPrepare {
  prepare_to : string;
  prepare_mount : HostPathMount
}.

Record ResultsStanza : Type := mkResults {
  results_from : string;
  results_mount : HostPathMount
}.

Record SlurmJob : Type := mkSlurmJob {
  sj_header : string;
  sj_action : string;
  sj_success_condition : string;
  sj_failure_condition : string;
  sj_node_selector : option (Dict.t string);
  sj_prepare : option PrepareStanza;
  sj_results : option ResultsStanza;
  sj_map_tmp_dir : bool;
  sj_workdir : string;
  sj_remote_command : option (list string)
}.

(** The [remote_command] argument of the constructors: a string, a list of
    strings or [None]. *)
Inductive CommandArg : Type :=
| CmdNone
| CmdStr (s : string)
| CmdList (l : list string).

(** [if isinstance(remote_command, str): remote_command = [remote_command]] *)
Definition normalize_command (c : CommandArg) : option (list string) :=
  match c with
  | CmdNone => None
  | CmdStr s => Some [s]
  | CmdList l => Some l
  end.

(** [SlurmJob.__init__]; the defaults of the keyword arguments are
    [header=""], [map_tmp_dir=True], [workdir="."] and [None] elsewhere. *)
Definition SlurmJob_init (header : string)
  (node_selector : option (Dict.t string))
  (prepare : option PrepareStanza) (results : option ResultsStanza)
  (map_tmp_dir : bool) (workdir : string) (remote_command : CommandArg)
  : SlurmJob :=
  {| sj_header := header;
     sj_action := "create";
     sj_success_condition := "status.status == Succeeded";
     sj_failure_condition := "status.status == Failed";
     sj_node_selector := node_selector;
     sj_prepare := prepare;
     sj_results := results;
     sj_map_tmp_dir := map_tmp_dir;
     sj_workdir := workdir;
     sj_remote_command := normalize_command remote_command |}.

(** The dictionary [get_manifest] builds before it is serialized. *)
Record Manifest : Type := mkManifest {
  m_apiVersion : string;
  m_kind : string;
  m_metadata_name : string;
  m_spec_batch : string;
  m_spec_nodeSelector : option (Dict.t string);
  m_spec_prepare : option PrepareStanza;
  m_spec_results : option ResultsStanza
}.

(** The [map_cmd] of [get_manifest]. *)
Definition sed_tmp_filter : string :=
  " | sed " ++ Py.dq ++ "s#/tmp#$(pwd)/tmp#g" ++ Py.dq ++ " ".

Definition manifest_map_cmd (map_tmp_dir : bool) : string :=
  if map_tmp_dir then sed_tmp_filter else EmptyString.

(** [template.command if self.remote_command is None else
    self.remote_command] *)
Definition effective_command (job : SlurmJob) (template : Template)
  : list string :=
  match sj_remote_command job with
  | None => t_command template
  | Some c => c
  end.

(** The value of [manifest["spec"]["batch"]]: [%] binds tighter than [+],
    so the header is prepended to the formatted text. *)
Definition batch (job : SlurmJob) (template : Template) : string :=
  sj_header job
  ++ (Py.nl ++ "mkdir -p " ++ sj_workdir job
      ++ Py.nl ++ "cd " ++ sj_workdir job
      ++ Py.nl ++ "cat <<EOF " ++ manifest_map_cmd (sj_map_tmp_dir job)
      ++ " | " ++ Py.join " " (effective_command job template)
      ++ Py.nl ++ t_script template
      ++ Py.nl ++ "EOF").

Definition manifest_dict (job : SlurmJob) (template : Template) : Manifest :=
  {| m_apiVersion := "wlm.sylabs.io/v1alpha1";
     m_kind := "SlurmJob";
     m_metadata_name := "{{pod.name}}";
     m_spec_batch := batch job template;
     m_spec_nodeSelector := sj_node_selector job;
     m_spec_prepare := sj_prepare job;
     m_spec_results := sj_results job |}.

Section Serialization.

(** [yaml.dump(manifest, default_style="|")], the serializer of PyYAML. *)
Variable yaml_dump : Manifest -> string.

(** [SlurmJob.get_manifest] *)
Definition get_manifest (job : SlurmJob) (template : Template) : string :=
  yaml_dump (manifest_dict job template).

End Serialization.

(** ** Templates, steps and pipelines *)

(** Modelled from the spec: [ShellOPTemplate] of [dflow.op_template], a
    template with a name, an image, a script, volumes and mounts, created
    with no inputs and no outputs. *)
Record ShellOPTemplate : Type := mkShellOPTemplate {
  sh_name : string;
  sh_image : string;
  sh_script : string;
  sh_volumes : list V1Volume;
  sh_mounts : list V1VolumeMount;
  sh_inputs : Inputs;
  sh_outputs : Outputs
}.

(** [V1alpha1ResourceTemplate] of the Argo client. *)
Record V1alpha1ResourceTemplate : Type := mkResourceTemplate {
  rt_action : string;
  rt_success_condition : string;
  rt_failure_condition : string;
  rt_manifest : string
}.

(** Modelled from the spec: [ScriptOPTemplate] of [dflow.op_template] as
    [render] creates it: a name and a resource, no inputs and no outputs. *)
Record ScriptOPTemplate : Type := mkScriptOPTemplate {
  sc_name : string;
  sc_resource : V1alpha1ResourceTemplate;
  sc_inputs : Inputs;
  sc_outputs : Outputs
}.

Inductive OPTemplate : Type :=
| ShellOP (t : ShellOPTemplate)
| ScriptOP (t : ScriptOPTemplate).

Definition template_inputs (t : OPTemplate) : Inputs :=
  match t with
  | ShellOP t => sh_inputs t
  | ScriptOP t => sc_inputs t
  end.

Definition template_outputs (t : OPTemplate) : Outputs :=
  match t with
  | ShellOP t => sh_outputs t
  | ScriptOP t => sc_outputs t
  end.

(** An output parameter of a step, [step.outputs.parameters[name]]. *)
Record StepOutputParameter : Type := mkStepOutputParameter {
  sop_step : string;
  sop_name : string;
  sop_decl : OutputParameter
}.

(** The value a step passes to an input parameter of its template: a
    string, or an output parameter of an earlier step. *)
Inductive Argument : Type :=
| ArgStr (s : string)
| ArgStepOutput (p : StepOutputParameter).

(** Modelled from the spec: [Step] of [dflow.step], a named use of a
    template with the parameters and artifacts passed to it; the outputs of
    a step are the outputs its template declares. *)
Record Step : Type := mkStep {
  st_name : string;
  st_template : OPTemplate;
  st_parameters : Dict.t Argument;
  st_artifacts : Dict.t InputArtifact
}.

(** [step.outputs.parameters[k]] *)
Definition step_output_parameter (s : Step) (k : string)
  : result StepOutputParameter :=
  match Dict.get (out_parameters (template_outputs (st_template s))) k with
  | Some p => Ok (mkStepOutputParameter (st_name s) k p)
  | None => Raise (KeyError k)
  end.

(** Modelled from the spec: [Steps] of [dflow.steps], the composite
    template: a name, inputs and outputs declared at its own level, and the
    steps in the order they were added. [Steps(name)] has none of them. *)
Record Steps : Type := mkSteps {
  steps_name : string;
  steps_inputs : Inputs;
  steps_outputs : Outputs;
  steps_steps : list Step
}.

Definition Steps_init (name : string) : Steps :=
  mkSteps name no_inputs no_outputs [].

(** [Steps.add] *)
Definition Steps_add (s : Steps) (step : Step) : Steps :=
  mkSteps (steps_name s) (steps_inputs s) (steps_outputs s)
    (steps_steps s ++ [step]).

(** ** SlurmJobTemplate *)

Record SlurmJobTemplate : Type := mkSlurmJobTemplate {
  sjt_header : string;
  sjt_node_selector : option (Dict.t string);
  sjt_prepare_image : string;
  sjt_collect_image : string;
  sjt_workdir : string;
  sjt_remote_command : option (list string)
}.

(** [SlurmJobTemplate.__init__] *)
Definition SlurmJobTemplate_init (header : string)
  (node_selector : option (Dict.t string)) (prepare_image : string)
  (collect_image : string) (workdir : string) (remote_command : CommandArg)
  : SlurmJobTemplate :=
  {| sjt_header := header;
     sjt_node_selector := node_selector;
     sjt_prepare_image := prepare_image;
     sjt_collect_image := collect_image;
     sjt_workdir := workdir;
     sjt_remote_command := normalize_command remote_command |}.

(** ["{{inputs.parameters.%s}}" % name] *)
Definition input_parameter_ref (name : string) : string :=
  "{{inputs.parameters." ++ name ++ "}}".

Definition prepare_output_ref : string :=
  "{{steps.slurm-prepare.outputs.parameters.dflow_vol_path}}".

(** The two lines the prepare script gets for one input artifact;
    [os.path.dirname(None)] raises [TypeError]. *)
Definition prepare_lines (art : InputArtifact) : result string :=
  match ia_path art with
  | None => Raise TypeError
  | Some p =>
      Ok ("mkdir -p /workdir/" ++ Py.dirname p ++ Py.nl
          ++ "cp -r " ++ p ++ " /workdir/" ++ p ++ Py.nl)
  end.

(** [for art in template.inputs.artifacts.values(): script += ...] *)
Fixpoint prepare_script (script : string) (arts : list InputArtifact)
  : result string :=
  match arts with
  | [] => Ok script
  | art :: arts' =>
      l <- prepare_lines art ;; prepare_script (script ++ l) arts'
  end.

(** One line of the collect script, for the path [p]. *)
Definition collect_line (p : string) : string :=
  "mkdir -p `dirname " ++ p ++ "` && cp -r /mnt/workdir/" ++ p
  ++ " " ++ p ++ Py.nl.

(** The two loops of the collect script: every output artifact, then the
    output parameters that are read from a path. *)
Definition collect_script (outputs : Outputs) : string :=
  let script :=
    fold_left (fun script art =>
                 script ++ collect_line (Py.str_opt (oa_path art)))
      (Dict.values (out_artifacts outputs)) EmptyString in
  fold_left (fun script par =>
               match op_value_from_path par with
               | Some p => script ++ collect_line p
               | None => script
               end)
    (Dict.values (out_parameters outputs)) script.

(** [for name in template.inputs.parameters.keys():
       if name[:6] == "dflow_": d[name] = InputParameter(value=...)] *)
Definition pass_dflow_parameters (src : Dict.t InputParameter)
  (d : Dict.t InputParameter) : Dict.t InputParameter :=
  fold_left (fun acc name =>
               if String.eqb (Py.slice_to 6 name) "dflow_"
               then Dict.set acc name
                      (mkInputParameter None (Some (input_parameter_ref name)))
               else acc)
    (Dict.keys src) d.

(** [for k in src: d[k] = other[k]], where the lookup may raise. *)
Fixpoint copy_each {V : Type} (other : Dict.t V) (ks : list string)
  (d : Dict.t V) : result (Dict.t V) :=
  match ks with
  | [] => Ok d
  | k :: ks' =>
      match Dict.get other k with
      | Some v => copy_each other ks' (Dict.set d k v)
      | None => Raise (KeyError k)
      end
  end.

Section Render.

(** [yaml.dump(manifest, default_style="|")] *)
Variable yaml_dump : Manifest -> string.

Variable self : SlurmJobTemplate.
Variable template : Template.

(** Lines 97-103: the composite template and its re-declared inputs. *)
Definition declare_inputs : Steps :=
  let new_template := Steps_init (t_name template ++ "-slurm") in
  let artifacts :=
    Dict.set_each (fun art_name => mkInputArtifact (Some art_name) None)
      (in_artifacts (t_inputs template))
      (in_artifacts (steps_inputs new_template)) in
  let parameters :=
    Dict.set_each (fun par_name => mkInputParameter (Some par_name) None)
      (in_parameters (t_inputs template))
      (in_parameters (steps_inputs new_template)) in
  mkSteps (steps_name new_template) (mkInputs parameters artifacts)
    (steps_outputs new_template) (steps_steps new_template).

(** Lines 110-119 and 120-128: the template of the prepare step. *)
Definition make_prepare_template (new_template : Steps)
  : result ShellOPTemplate :=
  let volume := mkV1Volume "workdir" "/tmp/{{pod.name}}" "DirectoryOrCreate" in
  let mount := mkV1VolumeMount "workdir" "/workdir" in
  script <- prepare_script EmptyString
              (Dict.values (in_artifacts (t_inputs template))) ;;
  Ok {| sh_name := steps_name new_template ++ "-prepare";
        sh_image := sjt_prepare_image self;
        sh_script := script;
        sh_volumes := [volume];
        sh_mounts := [mount];
        sh_inputs :=
          mkInputs
            (pass_dflow_parameters (in_parameters (t_inputs template))
               Dict.empty)
            (in_artifacts (t_inputs template));
        sh_outputs :=
          mkOutputs
            (Dict.set Dict.empty "dflow_vol_path"
               (mkOutputParameter None (Some "/tmp/{{pod.name}}") None None))
            Dict.empty |}.

(** Lines 109-146: the prepare phase, run when the template has input
    artifacts; it gives the pipeline so far and the [prepare] stanza. *)
Definition prepare_phase (new_template : Steps)
  : result (Steps * option PrepareStanza) :=
  if Dict.truthy (in_artifacts (t_inputs template)) then
    prepare_template <- make_prepare_template new_template ;;
    artifacts <- copy_each (in_artifacts (steps_inputs new_template))
                   (Dict.keys (in_artifacts (t_inputs template)))
                   Dict.empty ;;
    let prepare_step :=
      mkStep "slurm-prepare" (ShellOP prepare_template) Dict.empty
        artifacts in
    Ok (Steps_add new_template prepare_step,
        Some (mkPrepare (sjt_workdir self)
                (mkHostPathMount "workdir"
                   "{{inputs.parameters.dflow_vol_path}}"
                   "DirectoryOrCreate")))
  else Ok (new_template, None).

(** Lines 148-158: the [results] stanza. *)
Definition results_stanza : option ResultsStanza :=
  if Dict.truthy (out_parameters (t_outputs template))
     || Dict.truthy (out_artifacts (t_outputs template))
  then Some (mkResults (sjt_workdir self ++ "/workdir")
               (mkHostPathMount "mnt" "/tmp/{{pod.name}}"
                  "DirectoryOrCreate"))
  else None.

(** Lines 160-164: the job; [map_tmp_dir] keeps its default [True]. *)
Definition make_slurm_job (prepare : option PrepareStanza)
  (results : option ResultsStanza) : SlurmJob :=
  SlurmJob_init (sjt_header self) (sjt_node_selector self) prepare results
    true (sjt_workdir self ++ "/workdir")
    (match sjt_remote_command self with
     | None => CmdNone
     | Some l => CmdList l
     end).

(** Lines 165-183: the template of the run step. *)
Definition make_run_template (new_template : Steps)
  (prepare : option PrepareStanza) (results : option ResultsStanza)
  : ScriptOPTemplate :=
  let slurm_job := make_slurm_job prepare results in
  let parameters := in_parameters (t_inputs template) in
  {| sc_name := steps_name new_template ++ "-run";
     sc_resource :=
       mkResourceTemplate (sj_action slurm_job)
         (sj_success_condition slurm_job)
         (sj_failure_condition slurm_job)
         (get_manifest yaml_dump slurm_job template);
     sc_inputs :=
       mkInputs
         (match prepare with
          | Some _ =>
              Dict.set parameters "dflow_vol_path"
                (mkInputParameter None None)
          | None => parameters
          end)
         Dict.empty;
     sc_outputs :=
       mkOutputs
         (match results with
          | Some _ =>
              Dict.set Dict.empty "dflow_vol_path"
                (mkOutputParameter None (Some "/tmp/{{pod.name}}") None
                   None)
          | None => Dict.empty
          end)
         Dict.empty |}.

(** Lines 174-180: the parameters passed to the run step. *)
Definition run_parameters (prepare : option PrepareStanza)
  : Dict.t Argument :=
  let parameters :=
    Dict.set_each (fun par_name => ArgStr (input_parameter_ref par_name))
      (in_parameters (t_inputs template)) Dict.empty in
  match prepare with
  | Some _ =>
      Dict.set parameters "dflow_vol_path" (ArgStr prepare_output_ref)
  | None => parameters
  end.

Definition make_run_step (new_template : Steps)
  (prepare : option PrepareStanza) (results : option ResultsStanza)
  : Step :=
  mkStep "slurm-run"
    (ScriptOP (make_run_template new_template prepare results))
    (run_parameters prepare) Dict.empty.

(** Lines 189-215: the template of the collect step. *)
Definition make_collect_template (new_template : Steps)
  : ShellOPTemplate :=
  let volume :=
    mkV1Volume "mnt" "{{inputs.parameters.dflow_vol_path}}"
      "DirectoryOrCreate" in
  let mount := mkV1VolumeMount "mnt" "/mnt" in
  {| sh_name := steps_name new_template ++ "-collect";
     sh_image := sjt_collect_image self;
     sh_script := collect_script (t_outputs template);
     sh_volumes := [volume];
     sh_mounts := [mount];
     sh_inputs :=
       mkInputs
         (pass_dflow_parameters (in_parameters (t_inputs template))
            (Dict.set Dict.empty "dflow_vol_path"
               (mkInputParameter None None)))
         Dict.empty;
     sh_outputs :=
       mkOutputs (out_parameters (t_outputs template))
         (out_artifacts (t_outputs template)) |}.

(** Lines 223-232: the outputs of the composite template. *)
Definition declare_outputs (new_template : Steps) : Steps :=
  let artifacts :=
    Dict.set_each
      (fun art_name =>
         mkOutputArtifact (Some art_name) None
           (Some ("{{steps.slurm-collect.outputs.artifacts." ++ art_name
                  ++ "}}")))
      (out_artifacts (t_outputs template))
      (out_artifacts (steps_outputs new_template)) in
  let parameters :=
    Dict.set_each
      (fun par_name =>
         mkOutputParameter (Some par_name) None None
           (Some ("{{steps.slurm-collect.outputs.parameters." ++ par_name
                  ++ "}}")))
      (out_parameters (t_outputs template))
      (out_parameters (steps_outputs new_template)) in
  mkSteps (steps_name new_template) (steps_inputs new_template)
    (mkOutputs parameters artifacts) (steps_steps new_template).

(** Lines 188-232: the collect phase, run when [results] is set. *)
Definition collect_phase (new_template : Steps) (run_step : Step)
  (results : option ResultsStanza) : result Steps :=
  match results with
  | Some _ =>
      let collect_template := make_collect_template new_template in
      vol_path <- step_output_parameter run_step "dflow_vol_path" ;;
      let collect_step :=
        mkStep "slurm-collect" (ShellOP collect_template)
          (Dict.set Dict.empty "dflow_vol_path" (ArgStepOutput vol_path))
          Dict.empty in
      Ok (declare_outputs (Steps_add new_template collect_step))
  | None => Ok new_template
  end.

(** [SlurmJobTemplate.render] *)
Definition render : result Steps :=
  p <- prepare_phase declare_inputs ;;
  let new_template := fst p in
  let prepare := snd p in
  let results := results_stanza in
  let run_step := make_run_step new_template prepare results in
  collect_phase (Steps_add new_template run_step) run_step results.

End Render.

(** ** SlurmRemoteExecutor *)

(** [re.sub(" *#", "#", header)], on the characters of the header.

    [match_spaces_hash s] matches the pattern [ *#] at the start of [s]
    and returns what follows the match. The star is greedy, and giving
    back a space never helps: the character after a shorter run of spaces
    is a space, not [#]. *)
Fixpoint match_spaces_hash (s : list ascii) : option (list ascii) :=
  match s with
  | c :: s' =>
      if Ascii.eqb c " "%char then match_spaces_hash s'
      else if Ascii.eqb c "#"%char then Some s'
      else None
  | [] => None
  end.

(** The scan of [re.sub]: at each position, from the left, the pattern is
    tried; a match is replaced by [#] and the scan goes on after it, and
    where there is none the character is kept. The pattern matches no
    empty string. *)
Equations? re_sub_spaces_hash (s : list ascii) : list ascii
  by wf (List.length s) lt :=
  re_sub_spaces_hash [] := [];
  re_sub_spaces_hash (c :: s') with inspect (match_spaces_hash (c :: s')) := {
    | exist _ (Some rest) _ => "#"%char :: re_sub_spaces_hash rest;
    | exist _ None _ => c :: re_sub_spaces_hash s' }.
Proof.
  assert (shorter : forall s r,
             match_spaces_hash s = Some r ->
             (List.length r < List.length s)%nat).
  { clear. intros s. induction s as [|c s IH]; intros r; simpl.
    - discriminate.
    - destruct (Ascii.eqb c " "%char).
      + intros H. apply IH in H. lia.
      + destruct (Ascii.eqb c "#"%char); [|discriminate].
        intros H. injection H as <-. lia. }
  apply (shorter (c :: s') rest). assumption.
Qed.

Definition normalize_header (header : string) : string :=
  string_of_list_ascii (re_sub_spaces_hash (list_ascii_of_string header)).

(** Modelled from the spec: [PVC] of [dflow.io], the binding of a shared
    persistent volume; an object of the class is truthy. *)
Record PVC : Type := mkPVC {
  pvc_name : string
}.

Record SlurmRemoteExecutor : Type := mkSlurmRemoteExecutor {
  host : string;
  port : Z;
  username : string;
  password : option string;
  private_key_file : option string;
  workdir : string;
  command : option (list string);
  remote_command : option (list string);
  image : string;
  map_tmp_dir : bool;
  docker_executable : option string;
  action_retries : Z;
  header : string;
  interval : Z;
  pvc : option PVC
}.

(** [SlurmRemoteExecutor.__init__].

    Modelled from the spec: [RemoteExecutor.__init__] of [dflow.executor],
    which [super().__init__] calls, keeps the connection and command
    settings it is given. *)
Definition SlurmRemoteExecutor_init (host : string) (port : Z)
  (username : string) (password : option string)
  (private_key_file : option string) (workdir : string)
  (command remote_command : CommandArg) (image : string)
  (map_tmp_dir : bool) (docker_executable : option string)
  (action_retries : Z) (header : string) (interval : Z) (pvc : option PVC)
  : SlurmRemoteExecutor :=
  {| host := host;
     port := port;
     username := username;
     password := password;
     private_key_file := private_key_file;
     workdir := workdir;
     command := normalize_command command;
     remote_command := normalize_command remote_command;
     image := image;
     map_tmp_dir := map_tmp_dir;
     docker_executable := docker_executable;
     action_retries := action_retries;
     header := normalize_header header;
     interval := interval;
     pvc := pvc |}.

(** [echo '<line>' >> param.yaml], one line appended to the parameter
    file. *)
Definition echo_param (line : string) : string :=
  "echo '" ++ line ++ "' >> param.yaml" ++ Py.nl.

Section Run.

(** [RemoteExecutor.upload(src, dst)] of [dflow.executor]: the shell
    command that copies [src] to [dst] on the remote host. *)
Variable upload : SlurmRemoteExecutor -> string -> string -> string.

Variable self : SlurmRemoteExecutor.

(** Lines 289-298: the command that writes [slurm.sh]. *)
Definition write_slurm_sh (image : string) (remote_command : list string)
  : string :=
  match docker_executable self with
  | None =>
      let map_cmd :=
        if map_tmp_dir self
        then "sed -i " ++ Py.dq ++ "s#/tmp#$(pwd)/tmp#g" ++ Py.dq ++ " script"
        else EmptyString in
      "echo '" ++ header self ++ Py.nl ++ map_cmd ++ Py.nl
      ++ Py.join " " remote_command ++ " script' > slurm.sh" ++ Py.nl
  | Some docker =>
      "echo '" ++ header self ++ Py.nl ++ docker
      ++ " run -v$(pwd)/tmp:/tmp -v$(pwd)/script:/script -ti " ++ image
      ++ " " ++ Py.join " " remote_command ++ " /script' > slurm.sh" ++ Py.nl
  end.

(** The command that uploads [slurm.sh], as line 299 forms it. *)
Definition upload_slurm_sh : string :=
  upload self "slurm.sh" (workdir self ++ "/slurm.sh").

(** The texts that [run] appends to [script] with [script += ...], in
    the order of the statements. *)
Definition run_appends (image : string) (remote_command : list string)
  : list string :=
  [ write_slurm_sh image remote_command;
    upload_slurm_sh ++ " || exit 1" ++ Py.nl;
    match pvc self with
    | Some _ => echo_param "jobIdFile: /mnt/job_id.txt"
    | None => echo_param "jobIdFile: /tmp/job_id.txt"
    end;
    echo_param ("workdir: " ++ workdir self);
    echo_param "scriptFile: slurm.sh";
    echo_param ("interval: " ++ Py.str_int (interval self));
    echo_param ("host: " ++ host self);
    echo_param ("port: " ++ Py.str_int (port self));
    echo_param ("username: " ++ username self) ]
  ++ match password self with
     | Some p => [echo_param ("password: " ++ p)]
     | None => []
     end
  ++ [ "./bin/slurm param.yaml || exit 1" ++ Py.nl ].

(** [SlurmRemoteExecutor.run] *)
Definition run (image : string) (remote_command : list string) : string :=
  fold_left String.append (run_appends image remote_command) EmptyString.

End Run.

(** ** The header as the claim words it

    Every maximal run of spaces that stands immediately before a [#] is
    deleted, and nothing else changes. [pending] counts the spaces of the
    run being read: they are held back until the character after the run
    is known, dropped when it is [#] and put back otherwise. *)
Fixpoint delete_space_runs_before_hash (pending : nat) (s : list ascii)
  : list ascii :=
  match s with
  | [] => repeat " "%char pending
  | c :: s' =>
      if Ascii.eqb c " "%char
      then delete_space_runs_before_hash (S pending) s'
      else if Ascii.eqb c "#"%char
      then "#"%char :: delete_space_runs_before_hash 0 s'
      else repeat " "%char pending
           ++ c :: delete_space_runs_before_hash 0 s'
  end.

(** ** Reading the generated script back *)

(** [s.removeprefix(p)] when [s] starts with [p], on characters. *)
Fixpoint strip_prefix_chars (p s : list ascii) : option (list ascii) :=
  match p, s with
  | [], _ => Some s
  | a :: p', b :: s' =>
      if Ascii.eqb a b then strip_prefix_chars p' s' else None
  | _ :: _, [] => None
  end.

Definition strip_prefix (p s : string) : option string :=
  option_map string_of_list_ascii
    (strip_prefix_chars (list_ascii_of_string p) (list_ascii_of_string s)).

(** [s.removesuffix(suf)] when [s] ends with [suf]. *)
Definition strip_suffix (suf s : string) : option string :=
  option_map (fun r => string_of_list_ascii (rev r))
    (strip_prefix_chars (rev (list_ascii_of_string suf))
       (rev (list_ascii_of_string s))).

(** The line that a command of the form [echo '<line>' >> param.yaml]
    appends to the parameter file; [None] for any other command. *)
Definition param_entry (text : string) : option string :=
  match strip_suffix ("' >> param.yaml" ++ Py.nl) text with
  | Some rest => strip_prefix "echo '" rest
  | None => None
  end.

(** The lines that the statements of [run] append to the parameter file
    with [echo ... >> param.yaml], in order, read off the texts that [run]
    appends to the script. *)
Definition param_file
  (upload : SlurmRemoteExecutor -> string -> string -> string)
  (self : SlurmRemoteExecutor) (image : string) (remote_command : list string)
  : list string :=
  flat_map (fun text => match param_entry text with
                        | Some line => [line]
                        | None => []
                        end)
    (run_appends upload self image remote_command).

(** ** The script as the shell reads it

    The scripts that [run] returns are written in a small part of the
    shell language: commands separated by line feeds, words, strings in
    single quotes, redirections with [>] and [>>], and [|| exit 1] after a
    command. The reader below follows this part, on the text of the
    script, and gives up on anything else. *)

Definition apostrophe : ascii := "039"%char.
Definition line_feed : ascii := "010"%char.

(** Each character of a text with whether it stands inside single quotes,
    starting inside or outside; a quote mark opens or closes a string and
    counts as inside. Nothing is special inside single quotes but the
    closing mark. *)
Fixpoint mark_quoted (inside : bool) (s : list ascii)
  : list (ascii * bool) :=
  match s with
  | [] => []
  | c :: s' =>
      if Ascii.eqb c apostrophe
      then (c, true) :: mark_quoted (negb inside) s'
      else (c, inside) :: mark_quoted inside s'
  end.

(** Whether the text stops inside a string in single quotes. *)
Fixpoint ends_inside_quote (inside : bool) (s : list ascii) : bool :=
  match s with
  | [] => inside
  | c :: s' =>
      ends_inside_quote (if Ascii.eqb c apostrophe then negb inside else inside)
        s'
  end.

(** The pieces of a text between the line feeds that stand outside
    quotes; the last piece is what follows the last of them. *)
Fixpoint split_commands (m : list (ascii * bool))
  : list (list (ascii * bool)) :=
  match m with
  | [] => [[]]
  | (c, q) :: m' =>
      if negb q && Ascii.eqb c line_feed
      then [] :: split_commands m'
      else match split_commands m' with
           | piece :: pieces => ((c, q) :: piece) :: pieces
           | [] => [[(c, q)]]
           end
  end.

(** The text of a piece. *)
Definition unmark (m : list (ascii * bool)) : string :=
  string_of_list_ascii (map fst m).

(** A text all of whose characters stand outside quotes. *)
Definition unquoted (s : string) : list (ascii * bool) :=
  map (fun c => (c, false)) (list_ascii_of_string s).

Definition mark_eqb (a b : ascii * bool) : bool :=
  Ascii.eqb (fst a) (fst b) && Bool.eqb (snd a) (snd b).

Fixpoint strip_prefix_marked (p m : list (ascii * bool))
  : option (list (ascii * bool)) :=
  match p, m with
  | [], _ => Some m
  | a :: p', b :: m' =>
      if mark_eqb a b then strip_prefix_marked p' m' else None
  | _ :: _, [] => None
  end.

Definition strip_suffix_marked (suf m : list (ascii * bool))
  : option (list (ascii * bool)) :=
  option_map (@rev (ascii * bool))
    (strip_prefix_marked (rev suf) (rev m)).

(** The characters that, outside quotes, make a command more than a
    simple command and that the reader does not follow: the double quote,
    the backslash, and the characters in the text below. *)
Definition shell_special (c : ascii) : bool :=
  Ascii.eqb c "034"%char
  || Ascii.eqb c "092"%char
  || existsb (Ascii.eqb c) (list_ascii_of_string "#;&$`()<>|").

(** A command without the redirection that may end it; the reader knows
    the two that [run] writes: [> slurm.sh] and [>> param.yaml]. *)
Definition strip_redirection (m : list (ascii * bool))
  : list (ascii * bool) :=
  match strip_suffix_marked (unquoted " > slurm.sh") m with
  | Some body => body
  | None =>
      match strip_suffix_marked (unquoted " >> param.yaml") m with
      | Some body => body
      | None => m
      end
  end.

(** No special character outside quotes. *)
Definition simple_command (m : list (ascii * bool)) : bool :=
  forallb (fun cq => snd cq || negb (shell_special (fst cq))) m.

(** The space and the tabulation, which part the words of a command. *)
Definition blank (c : ascii) : bool :=
  Ascii.eqb c " "%char || Ascii.eqb c "009"%char.

Fixpoint skip_blanks (m : list (ascii * bool)) : list (ascii * bool) :=
  match m with
  | (c, q) :: m' => if negb q && blank c then skip_blanks m' else m
  | [] => []
  end.

Fixpoint take_word (m : list (ascii * bool)) : list ascii :=
  match m with
  | (c, q) :: m' =>
      if negb q && blank c then []
      else if Ascii.eqb c apostrophe then take_word m'
      else c :: take_word m'
  | [] => []
  end.

(** The first word of a command, its quote marks taken off. *)
Definition first_word (m : list (ascii * bool)) : string :=
  string_of_list_ascii (take_word (skip_blanks m)).

(** The words that, first in a command, are not the name of a program to
    run: the reserved words of the shell and the built-in commands that
    act on the shell itself. *)
Definition shell_words : list string :=
  [ "if"; "then"; "else"; "elif"; "fi"; "do"; "done"; "case"; "esac";
    "while"; "until"; "for"; "in"; "{"; "}"; "!"; "[["; "time";
    "function"; "select"; "coproc";
    "break"; ":"; "."; "continue"; "eval"; "exec"; "exit"; "export";
    "readonly"; "return"; "set"; "shift"; "times"; "trap"; "unset";
    "alias"; "unalias"; "bg"; "cd"; "command"; "fc"; "fg"; "getopts";
    "hash"; "jobs"; "kill"; "local"; "read"; "ulimit"; "umask"; "wait";
    "builtin"; "declare"; "typeset"; "let"; "source"; "shopt"; "enable";
    "pushd"; "popd"; "logout"; "suspend"; "disown"; "mapfile";
    "readarray" ].

(** A word that names a program to run: not empty, not one of the shell's
    own words, and without the characters of an assignment or of a pattern
    for file names. *)
Definition names_program (w : string) : bool :=
  negb (String.eqb w EmptyString)
  && negb (existsb (String.eqb w) shell_words)
  && forallb (fun c => negb (existsb (Ascii.eqb c)
                               (list_ascii_of_string "=*?[~")))
       (list_ascii_of_string w).

(** A simple command that runs a program: apart from a redirection at its
    end, no special character outside quotes, and a first word that names a
    program. *)
Definition runs_program (m : list (ascii * bool)) : bool :=
  simple_command (strip_redirection m)
  && names_program (first_word (strip_redirection m)).

(** A command of the script: a simple command that runs a program, such a
    command followed by [|| exit 1], or something the reader does not
    follow. *)
Inductive Command : Type :=
| Simple (text : string)
| OrExit (text : string)
| Unknown (text : string).

Definition parse_command (m : list (ascii * bool)) : Command :=
  match strip_suffix_marked (unquoted " || exit 1") m with
  | Some body =>
      if runs_program body then OrExit (unmark body) else Unknown (unmark m)
  | None => if runs_program m then Simple (unmark m) else Unknown (unmark m)
  end.

(** A piece that holds more than blanks. *)
Definition not_blank (m : list (ascii * bool)) : bool :=
  existsb (fun cq => snd cq || negb (blank (fst cq))) m.

(** The commands the shell reads in full from a script: the pieces that
    hold more than blanks, without the last one when it stops inside a
    string. *)
Definition script_pieces (script : string) : list (list (ascii * bool)) :=
  let chars := list_ascii_of_string script in
  let pieces := split_commands (mark_quoted false chars) in
  filter not_blank
    (if ends_inside_quote false chars then removelast pieces else pieces).

Definition script_commands (script : string) : list Command :=
  map parse_command (script_pieces script).

(** How a script ends: every command was run; or the shell left with a
    status after the commands in [ran]; or it met, after them, a command
    the reader does not follow. *)
Inductive Outcome : Type :=
| Completed (ran : list string)
| Exited (status : Z) (ran : list string)
| NotFollowed (ran : list string).

(** The shell runs the commands in order; [fails c] tells whether the
    command [c] returns a status other than zero, and the program it runs
    leaves the shell itself alone. A failing command followed by
    [|| exit 1] ends the script with status 1; after any other command the
    script goes on. *)
Fixpoint sh_exec (fails : string -> bool) (cs : list Command)
  (ran : list string) : Outcome :=
  match cs with
  | [] => Completed ran
  | Simple c :: cs' => sh_exec fails cs' (List.app ran [c])
  | OrExit c :: cs' =>
      if fails c then Exited 1 (List.app ran [c])
      else sh_exec fails cs' (List.app ran [c])
  | Unknown _ :: _ => NotFollowed ran
  end.

(** The run of a script: its commands in order and, when the text stops
    inside a string, a syntax error after the last command read in full,
    with which the shell leaves with status 2. *)
Definition sh (fails : string -> bool) (script : string) : Outcome :=
  match sh_exec fails (script_commands script) [] with
  | Completed ran =>
      if ends_inside_quote false (list_ascii_of_string script)
      then Exited 2 ran
      else Completed ran
  | other => other
  end.

(** The line of a command [echo '<line>' >> param.yaml], whose argument
    is one string in single quotes; [None] for any other command. *)
Definition echo_to_param_yaml (m : list (ascii * bool)) : option string :=
  match strip_suffix_marked (unquoted " >> param.yaml") m with
  | Some rest =>
      match strip_prefix_marked (unquoted "echo ") rest with
      | Some ((a, true) :: word) =>
          match rev word with
          | (b, true) :: inner =>
              if Ascii.eqb a apostrophe && Ascii.eqb b apostrophe
                 && forallb (fun cq => snd cq
                                       && negb (Ascii.eqb (fst cq) apostrophe))
                      inner
              then Some (string_of_list_ascii (rev (map fst inner)))
              else None
          | _ => None
          end
      | _ => None
      end
  | None => None
  end.

(** The texts that the commands of a script append to [param.yaml] with
    [echo], in order. *)
Definition script_param_texts (script : string) : list string :=
  flat_map (fun m => match echo_to_param_yaml m with
                     | Some text => [text]
                     | None => []
                     end)
    (script_pieces script).

Definition backslash : ascii := "092"%char.

(** A text that every [echo] writes as it is, followed by a line feed: it
    holds no backslash, which the [echo] of some shells rewrites, and does
    not start like an option. *)
Definition echo_literal (text : string) : bool :=
  forallb (fun c => negb (Ascii.eqb c backslash)) (list_ascii_of_string text)
  && negb (prefix "-" text).

(** The lines that the commands of a script append to [param.yaml]: each
    text that [echo] writes, cut at its line feeds. [None] when one of the
    texts is not written as it is by every [echo]. *)
Definition script_param_lines (script : string) : option (list string) :=
  let texts := script_param_texts script in
  if forallb echo_literal texts
  then Some (flat_map Py.lines texts)
  else None.











(** ** The example template of the specification *)

(** The template named [calc], with the input artifact [input.json] at
    [/in/input.json] and the output artifact [out.json] at
    [/out/out.json]. *)
Definition calc_template (script : string) (command : list string)
  : Template :=
  mkTemplate "calc"
    (mkInputs Dict.empty
       [("input.json", mkInputArtifact None (Some "/in/input.json"))])
    (mkOutputs Dict.empty
       [("out.json", mkOutputArtifact None (Some "/out/out.json") None)])
    script command.

Definition calc : Template := calc_template "python calc.py" ["python"].

(** The examples are run with a serializer that prints the batch script
    of the manifest alone. *)
Definition dump_batch : Manifest -> string := m_spec_batch.

(** A template with one input parameter, no artifact and no output. *)
Definition greet : Template :=
  mkTemplate "greet"
    (mkInputs [("msg", mkInputParameter (Some "msg") None)] Dict.empty)
    no_outputs "echo {{inputs.parameters.msg}}" ["sh"].

(** A template with one input artifact and no output. *)
Definition archive : Template :=
  mkTemplate "archive"
    (mkInputs Dict.empty
       [("data", mkInputArtifact (Some "data") (Some "/tmp/data"))])
    no_outputs "tar czf data.tgz /tmp/data" ["sh"].



(** An upload command that copies with [cp]. *)
Definition cp_upload (self : SlurmRemoteExecutor) (src dst : string)
  : string :=
  "cp " ++ src ++ " " ++ dst.

(** An SSH executor without a password whose user name closes the quoted
    string and goes on with a command of its own. *)
Definition sly_user : SlurmRemoteExecutor :=
  SlurmRemoteExecutor_init "login.cluster" 22
    ("u' >> param.yaml" ++ Py.nl ++ "echo 'password: hunter2") None None
    "work" CmdNone CmdNone "dptechnology/dflow-extender" true None (-1)
    "#!/bin/bash" 3 None.

(** A template with two names in each of its dictionaries. *)
Definition survey : Template :=
  mkTemplate "survey"
    (mkInputs [("seed", mkInputParameter (Some "seed") None);
               ("count", mkInputParameter (Some "count") None)]
       [("mesh", mkInputArtifact (Some "mesh") (Some "/in/mesh"));
        ("config", mkInputArtifact (Some "config") (Some "/in/config"))])
    (mkOutputs
       [("energy", mkOutputParameter (Some "energy") None
                     (Some "/out/energy") None);
        ("steps", mkOutputParameter (Some "steps") (Some "10") None None)]
       [("log", mkOutputArtifact (Some "log") (Some "/out/log") None);
        ("dump", mkOutputArtifact (Some "dump") (Some "/out/dump") None)])
    "run survey" ["sh"].

(** [SlurmJobTemplate()] with the defaults of its constructor. *)
Definition default_executor : SlurmJobTemplate :=
  SlurmJobTemplate_init EmptyString None "alpine:latest" "alpine:latest"
    "dflow/workflows/{{workflow.name}}/{{pod.name}}" CmdNone.

(** The script of the step called [name] in a pipeline, when the step is a
    shell template. *)
Definition step_script (c : Steps) (name : string) : option string :=
  match find (fun s => String.eqb (st_name s) name) (steps_steps c) with
  | Some s =>
      match st_template s with
      | ShellOP t => Some (sh_script t)
      | ScriptOP _ => None
      end
  | None => None
  end.

Definition step_names (c : Steps) : list string :=
  map st_name (steps_steps c).

(** Every input artifact of the template declares its path, as those of a
    Template Descriptor do. *)
Definition declares_paths (t : Template) : Prop :=
  Forall (fun art => ia_path art <> None)
    (Dict.values (in_artifacts (t_inputs t))).

(** Whether an argument of a step is the placeholder reference to the
    output parameter of the prepare step. *)
Definition references_prepare_output (a : Argument) : bool :=
  match a with
  | ArgStr s => String.eqb s prepare_output_ref
  | ArgStepOutput p => String.eqb (sop_step p) "slurm-prepare"
  end.

(** A template with the reserved parameter [dflow_key], the ordinary
    parameter [msg] and one input artifact. *)
Definition tagged : Template :=
  mkTemplate "tagged"
    (mkInputs [("dflow_key", mkInputParameter (Some "dflow_key") None);
               ("msg", mkInputParameter (Some "msg") None)]
       [("data", mkInputArtifact (Some "data") (Some "/tmp/data"))])
    no_outputs "cat /tmp/data" ["sh"].

(** A template whose input artifact declares no path. *)
Definition pathless : Template :=
  mkTemplate "pathless"
    (mkInputs Dict.empty [("data", mkInputArtifact (Some "data") None)])
    no_outputs "true" ["sh"].

(** ** Looking into a pipeline *)

(** The step called [name] in a pipeline. *)
Definition find_step (c : Steps) (name : string) : option Step :=
  find (fun s => String.eqb (st_name s) name) (steps_steps c).

(** [template.name] *)
Definition template_name (t : OPTemplate) : string :=
  match t with
  | ShellOP t => sh_name t
  | ScriptOP t => sc_name t
  end.

(** [name[:6] == "dflow_"], the test on the reserved prefix. *)
Definition is_dflow_name (name : string) : bool :=
  String.eqb (Py.slice_to 6 name) "dflow_".

(** Whether a space stands immediately before a [#]. *)
Fixpoint space_before_hash (s : list ascii) : bool :=
  match s with
  | a :: s' =>
      match s' with
      | b :: _ =>
          (Ascii.eqb a " "%char && Ascii.eqb b "#"%char)
          || space_before_hash s'
      | [] => false
      end
  | [] => false
  end.

(** The characters of a text other than spaces, in order. *)
Definition without_spaces (s : list ascii) : list ascii :=
  filter (fun c => negb (Ascii.eqb c " "%char)) s.

(** * Properties *)

(** ** Dictionaries *)

Section DictFacts.

Context {V : Type}.

Lemma get_set_same (d : Dict.t V) (k : string) (v : V) :
  Dict.get (Dict.set d k v) k = Some v.
Proof.
  induction d as [|[k' v'] d IH]; simpl.
  - rewrite String.eqb_refl. reflexivity.
  - destruct (String.eqb k' k) eqn:E; simpl; rewrite E; auto.
Qed.

Lemma get_set_other (d : Dict.t V) (k k' : string) (v : V) :
  k <> k' -> Dict.get (Dict.set d k v) k' = Dict.get d k'.
Proof.
  intros Hne. induction d as [|[k0 v0] d IH]; simpl.
  - destruct (String.eqb_spec k k'); [contradiction | reflexivity].
  - destruct (String.eqb_spec k0 k) as [->|Hk]; simpl.
    + destruct (String.eqb_spec k k'); [contradiction | reflexivity].
    + destruct (String.eqb k0 k'); auto.
Qed.

Lemma in_keys_set (d : Dict.t V) (k k' : string) (v : V) :
  In k' (Dict.keys (Dict.set d k v)) <-> k = k' \/ In k' (Dict.keys d).
Proof.
  induction d as [|[k0 v0] d IH]; simpl.
  - tauto.
  - destruct (String.eqb_spec k0 k) as [->|Hk]; simpl; tauto.
Qed.

Lemma keys_set_absent (d : Dict.t V) (k : string) (v : V) :
  ~ In k (Dict.keys d) ->
  Dict.keys (Dict.set d k v) = (Dict.keys d ++ [k])%list.
Proof.
  induction d as [|[k0 v0] d IH]; simpl; [reflexivity|].
  intros Hn. destruct (String.eqb_spec k0 k) as [->|Hk]; simpl.
  - tauto.
  - rewrite IH; tauto.
Qed.

Lemma truthy_true (d : Dict.t V) : d <> [] -> Dict.truthy d = true.
Proof. destruct d; [congruence | reflexivity]. Qed.

End DictFacts.

Section SetEachFacts.

Context {V W : Type}.
Variable f : string -> W.

Lemma in_keys_fold_set (ks : list string) (d : Dict.t W) (k : string) :
  In k (Dict.keys (fold_left (fun acc k => Dict.set acc k (f k)) ks d))
  <-> In k ks \/ In k (Dict.keys d).
Proof.
  revert d. induction ks as [|k0 ks IH]; intros d; simpl.
  - tauto.
  - rewrite IH, in_keys_set. tauto.
Qed.

Lemma get_fold_set (ks : list string) (d : Dict.t W) (k : string) :
  In k ks ->
  Dict.get (fold_left (fun acc k => Dict.set acc k (f k)) ks d) k
  = Some (f k).
Proof.
  assert (keep : forall ks d,
             Dict.get d k = Some (f k) ->
             Dict.get (fold_left (fun acc k => Dict.set acc k (f k)) ks d) k
             = Some (f k)).
  { clear. intros ks. induction ks as [|k0 ks IH]; intros d Hd; simpl; auto.
    apply IH. destruct (String.eqb_spec k0 k) as [->|Hk].
    - apply get_set_same.
    - rewrite get_set_other; auto. }
  revert d. induction ks as [|k0 ks IH]; intros d; simpl; [tauto|].
  intros [->|Hin].
  - apply keep, get_set_same.
  - apply IH, Hin.
Qed.

(** The names of a dictionary filled by a loop over [src] are the names
    of [src]. *)
Lemma in_keys_set_each (src : Dict.t V) (k : string) :
  In k (Dict.keys (Dict.set_each f src Dict.empty)) <-> In k (Dict.keys src).
Proof.
  unfold Dict.set_each. rewrite in_keys_fold_set. simpl. tauto.
Qed.

Lemma get_set_each (src : Dict.t V) (k : string) :
  In k (Dict.keys src) ->
  Dict.get (Dict.set_each f src Dict.empty) k = Some (f k).
Proof. apply get_fold_set. Qed.

(** For a dictionary, whose keys are distinct, the loop keeps the order
    of the names as well. *)
Lemma keys_set_each (src : Dict.t V) :
  Dict.wf src ->
  Dict.keys (Dict.set_each f src Dict.empty) = Dict.keys src.
Proof.
  unfold Dict.wf, Dict.set_each.
  assert (gen : forall ks d,
             NoDup (Dict.keys d ++ ks) ->
             Dict.keys (fold_left (fun acc k => Dict.set acc k (f k)) ks d)
             = (Dict.keys d ++ ks)%list).
  { clear. intros ks. induction ks as [|k ks IH]; intros d Hnd; simpl.
    - rewrite app_nil_r. reflexivity.
    - assert (Hk : ~ In k (Dict.keys d)).
      { apply NoDup_remove_2 in Hnd. intros H. apply Hnd.
        apply in_or_app. left. exact H. }
      rewrite IH; rewrite (keys_set_absent d k (f k) Hk).
      + rewrite <- app_assoc. reflexivity.
      + rewrite <- app_assoc. exact Hnd. }
  intros Hnd. rewrite gen; simpl; auto.
Qed.

End SetEachFacts.

(** ** The phases of [render] *)

Lemma prepare_script_ok (arts : list InputArtifact) (script : string) :
  Forall (fun art => ia_path art <> None) arts ->
  exists script', prepare_script script arts = Ok script'.
Proof.
  intros H. revert script. induction H as [|art arts Hart _ IH]; intros script.
  - exists script. reflexivity.
  - simpl. unfold prepare_lines.
    destruct (ia_path art) as [p|]; [|congruence]. simpl. apply IH.
Qed.

Lemma copy_each_ok {V : Type} (other : Dict.t V) (ks : list string)
  (d : Dict.t V) :
  (forall k, In k ks -> Dict.get other k <> None) ->
  exists d', copy_each other ks d = Ok d'.
Proof.
  revert d. induction ks as [|k ks IH]; intros d Hks; simpl.
  - exists d. reflexivity.
  - destruct (Dict.get other k) as [v|] eqn:E.
    + apply IH. intros k' Hk'. apply Hks. right. exact Hk'.
    + exfalso. apply (Hks k); [left; reflexivity | exact E].
Qed.

(** Without input artifacts the prepare phase adds nothing. *)
Lemma prepare_phase_skipped (self : SlurmJobTemplate) (t : Template)
  (new_template : Steps) :
  in_artifacts (t_inputs t) = [] ->
  prepare_phase self t new_template = Ok (new_template, None).
Proof. intros H. unfold prepare_phase. rewrite H. reflexivity. Qed.

(** With input artifacts that declare their paths, the prepare phase adds
    the step [slurm-prepare] and sets the [prepare] stanza. *)
Lemma prepare_phase_run (self : SlurmJobTemplate) (t : Template) :
  declares_paths t ->
  in_artifacts (t_inputs t) <> [] ->
  exists prepare_template artifacts stanza,
    make_prepare_template self t (declare_inputs t) = Ok prepare_template
    /\ prepare_phase self t (declare_inputs t)
       = Ok (Steps_add (declare_inputs t)
               (mkStep "slurm-prepare" (ShellOP prepare_template) Dict.empty
                  artifacts),
             Some stanza).
Proof.
  intros Hpaths Hne. unfold prepare_phase.
  rewrite (truthy_true _ Hne).
  destruct (prepare_script_ok _ EmptyString Hpaths) as [script Hscript].
  unfold make_prepare_template. rewrite Hscript. simpl.
  match goal with
  | |- context [copy_each ?o ?ks ?d] =>
      destruct (copy_each_ok o ks d) as [arts Harts]
  end.
  { intros k Hk. simpl. rewrite (get_set_each _ _ _ Hk). discriminate. }
  rewrite Harts. simpl. eauto.
Qed.

(** The collect phase never fails after the run step of [render]: the run
    template declares [dflow_vol_path] whenever [results] is set. *)
Lemma collect_phase_run (yaml_dump : Manifest -> string)
  (self : SlurmJobTemplate) (t : Template) (new_template : Steps)
  (prepare : option PrepareStanza) :
  let results := results_stanza self t in
  let run_step := make_run_step yaml_dump self t new_template prepare results in
  let with_run := Steps_add new_template run_step in
  collect_phase self t with_run run_step results
  = Ok (match results with
        | Some _ =>
            declare_outputs t
              (Steps_add with_run
                 (mkStep "slurm-collect"
                    (ShellOP (make_collect_template self t with_run))
                    (Dict.set Dict.empty "dflow_vol_path"
                       (ArgStepOutput
                          (mkStepOutputParameter "slurm-run" "dflow_vol_path"
                             (mkOutputParameter None
                                (Some "/tmp/{{pod.name}}") None None))))
                    Dict.empty))
        | None => with_run
        end).
Proof.
  intros results run_step with_run. unfold collect_phase.
  subst run_step with_run. destruct results; reflexivity.
Qed.

Lemma results_stanza_none (self : SlurmJobTemplate) (t : Template) :
  results_stanza self t = None ->
  out_parameters (t_outputs t) = [] /\ out_artifacts (t_outputs t) = [].
Proof.
  unfold results_stanza.
  destruct (out_parameters (t_outputs t)), (out_artifacts (t_outputs t));
    simpl; try discriminate; auto.
Qed.

(** [render] returns a pipeline for every template whose input artifacts
    declare their paths. *)
Lemma render_returns (yaml_dump : Manifest -> string)
  (self : SlurmJobTemplate) (t : Template) :
  declares_paths t ->
  exists p,
    prepare_phase self t (declare_inputs t) = Ok p
    /\ render yaml_dump self t
       = collect_phase self t
           (Steps_add (fst p)
              (make_run_step yaml_dump self t (fst p) (snd p)
                 (results_stanza self t)))
           (make_run_step yaml_dump self t (fst p) (snd p)
              (results_stanza self t))
           (results_stanza self t).
Proof.
  intros Hpaths. unfold render.
  destruct (in_artifacts (t_inputs t)) as [|a l] eqn:E.
  - rewrite (prepare_phase_skipped self t _ E). eexists. split; reflexivity.
  - destruct (prepare_phase_run self t Hpaths) as (pt & arts & st & _ & H).
    { rewrite E. discriminate. }
    rewrite H. eexists. split; reflexivity.
Qed.

Lemma render_total (yaml_dump : Manifest -> string)
  (self : SlurmJobTemplate) (t : Template) :
  declares_paths t -> exists c, render yaml_dump self t = Ok c.
Proof.
  intros Hpaths.
  destruct (render_returns yaml_dump self t Hpaths) as (p & _ & Hr).
  rewrite collect_phase_run in Hr. eexists. exact Hr.
Qed.

Lemma prepare_script_declared (arts : list InputArtifact)
  (script script' : string) :
  prepare_script script arts = Ok script' ->
  Forall (fun art => ia_path art <> None) arts.
Proof.
  revert script. induction arts as [|art arts IH]; intros script; simpl.
  - constructor.
  - unfold prepare_lines. destruct (ia_path art) as [p|] eqn:E; simpl.
    + intros H. constructor; [congruence | eapply IH, H].
    + discriminate.
Qed.

(** [render] returns exactly for the templates whose input artifacts
    declare their paths; for the others [os.path.dirname] raises. *)
Lemma render_returns_iff (yaml_dump : Manifest -> string)
  (self : SlurmJobTemplate) (t : Template) :
  (exists c, render yaml_dump self t = Ok c) <-> declares_paths t.
Proof.
  split; [|apply render_total].
  intros [c Hr]. unfold render in Hr.
  destruct (prepare_phase self t (declare_inputs t)) as [p|] eqn:Hp;
    simpl in Hr; [|discriminate].
  unfold prepare_phase in Hp. unfold declares_paths.
  destruct (in_artifacts (t_inputs t)) as [|a l] eqn:E; [constructor|].
  rewrite <- E in *. rewrite truthy_true in Hp by (rewrite E; discriminate).
  unfold make_prepare_template in Hp.
  destruct (prepare_script EmptyString _) eqn:Hs; simpl in Hp;
    [|discriminate].
  eapply prepare_script_declared, Hs.
Qed.

(** The prepare phase leaves the name and the declarations of the
    pipeline as they are. *)
Lemma prepare_phase_interface (self : SlurmJobTemplate) (t : Template)
  (new_template : Steps) (p : Steps * option PrepareStanza) :
  prepare_phase self t new_template = Ok p ->
  steps_name (fst p) = steps_name new_template
  /\ steps_inputs (fst p) = steps_inputs new_template
  /\ steps_outputs (fst p) = steps_outputs new_template.
Proof.
  unfold prepare_phase.
  destruct (Dict.truthy (in_artifacts (t_inputs t))).
  - destruct (make_prepare_template self t new_template); simpl;
      [|discriminate].
    destruct (copy_each _ _ _); simpl; [|discriminate].
    intros H. injection H as <-. simpl. auto.
  - intros H. injection H as <-. simpl. auto.
Qed.

(** The name, the inputs and the outputs of the pipeline [render]
    returns. *)
Lemma render_interface (yaml_dump : Manifest -> string)
  (self : SlurmJobTemplate) (t : Template) (c : Steps) :
  render yaml_dump self t = Ok c ->
  steps_name c = t_name t ++ "-slurm"
  /\ steps_inputs c = steps_inputs (declare_inputs t)
  /\ steps_outputs c
     = match results_stanza self t with
       | Some _ => steps_outputs (declare_outputs t (declare_inputs t))
       | None => no_outputs
       end.
Proof.
  unfold render.
  destruct (prepare_phase self t (declare_inputs t)) as [p|] eqn:Hp;
    simpl; [|discriminate].
  destruct (prepare_phase_interface _ _ _ _ Hp) as (Hn & Hi & Ho).
  rewrite collect_phase_run.
  intros H. injection H as <-.
  destruct (results_stanza self t); simpl; rewrite ?Hn, ?Hi, ?Ho; auto.
Qed.

(** ** Claims on [SlurmJobTemplate.render] *)

(** C1. The composite template that [render] returns declares the names
    of the original template and no others: its input parameter names,
    input artifact names, output parameter names and output artifact names
    are, as sets, those of the original. *)
Theorem render_preserves_names (yaml_dump : Manifest -> string)
  (self : SlurmJobTemplate) (t : Template) :
  declares_paths t ->
  exists c,
    render yaml_dump self t = Ok c
    /\ (forall n, In n (Dict.keys (in_parameters (steps_inputs c)))
                  <-> In n (Dict.keys (in_parameters (t_inputs t))))
    /\ (forall n, In n (Dict.keys (in_artifacts (steps_inputs c)))
                  <-> In n (Dict.keys (in_artifacts (t_inputs t))))
    /\ (forall n, In n (Dict.keys (out_parameters (steps_outputs c)))
                  <-> In n (Dict.keys (out_parameters (t_outputs t))))
    /\ (forall n, In n (Dict.keys (out_artifacts (steps_outputs c)))
                  <-> In n (Dict.keys (out_artifacts (t_outputs t)))).
Proof.
  intros Hpaths.
  destruct (render_total yaml_dump self t Hpaths) as (c & Hr).
  exists c. split; [exact Hr|].
  destruct (render_interface _ _ _ _ Hr) as (_ & Hi & Ho).
  rewrite Hi, Ho.
  split; [|split; [|split]]; intros n.
  1, 2: simpl; apply in_keys_set_each.
  all: destruct (results_stanza self t) eqn:Hres; simpl;
    try apply in_keys_set_each.
  all: apply results_stanza_none in Hres; destruct Hres as [Hp Ha];
    rewrite ?Hp, ?Ha; simpl; tauto.
Qed.

(** The names of [calc] are kept: one input artifact, one output
    artifact, no parameter. *)
Lemma render_preserves_names_calc :
  declares_paths calc
  /\ exists c,
       render dump_batch default_executor calc = Ok c
       /\ (forall n, In n (Dict.keys (in_parameters (steps_inputs c)))
                     <-> In n (Dict.keys (in_parameters (t_inputs calc))))
       /\ (forall n, In n (Dict.keys (in_artifacts (steps_inputs c)))
                     <-> In n (Dict.keys (in_artifacts (t_inputs calc))))
       /\ (forall n, In n (Dict.keys (out_parameters (steps_outputs c)))
                     <-> In n (Dict.keys (out_parameters (t_outputs calc))))
       /\ (forall n, In n (Dict.keys (out_artifacts (steps_outputs c)))
                     <-> In n (Dict.keys (out_artifacts (t_outputs calc)))).
Proof.
  assert (H : declares_paths calc).
  { unfold declares_paths. simpl. repeat constructor. discriminate. }
  split; [exact H|].
  exact (render_preserves_names dump_batch default_executor calc H).
Defined.

(** When the dictionaries of the template hold each name once, as Python
    dictionaries do, the composite declares the names in the order of the
    original as well. *)
Lemma render_keeps_name_order (yaml_dump : Manifest -> string)
  (self : SlurmJobTemplate) (t : Template) (c : Steps) :
  render yaml_dump self t = Ok c ->
  Dict.wf (in_parameters (t_inputs t)) ->
  Dict.wf (in_artifacts (t_inputs t)) ->
  Dict.wf (out_parameters (t_outputs t)) ->
  Dict.wf (out_artifacts (t_outputs t)) ->
  Dict.keys (in_parameters (steps_inputs c))
  = Dict.keys (in_parameters (t_inputs t))
  /\ Dict.keys (in_artifacts (steps_inputs c))
     = Dict.keys (in_artifacts (t_inputs t))
  /\ Dict.keys (out_parameters (steps_outputs c))
     = Dict.keys (out_parameters (t_outputs t))
  /\ Dict.keys (out_artifacts (steps_outputs c))
     = Dict.keys (out_artifacts (t_outputs t)).
Proof.
  intros Hr Hip Hia Hop Hoa.
  destruct (render_interface _ _ _ _ Hr) as (_ & Hi & Ho).
  rewrite Hi, Ho. simpl.
  split; [apply keys_set_each, Hip|]. split; [apply keys_set_each, Hia|].
  destruct (results_stanza self t) eqn:Hres; simpl.
  - split; apply keys_set_each; assumption.
  - apply results_stanza_none in Hres. destruct Hres as [Hp Ha].
    rewrite Hp, Ha. auto.
Qed.

(** The steps of the pipeline [render] returns: those of the prepare
    phase, the run step and, when [results] is set, the collect step. *)
Lemma render_steps (yaml_dump : Manifest -> string)
  (self : SlurmJobTemplate) (t : Template) (c : Steps) :
  render yaml_dump self t = Ok c ->
  exists p tail,
    prepare_phase self t (declare_inputs t) = Ok p
    /\ steps_steps c
       = (steps_steps (fst p)
          ++ make_run_step yaml_dump self t (fst p) (snd p)
               (results_stanza self t) :: tail)%list
    /\ match results_stanza self t with
       | Some _ =>
           exists collect,
             tail = [collect] /\ st_name collect = "slurm-collect"
       | None => tail = []
       end.
Proof.
  unfold render.
  destruct (prepare_phase self t (declare_inputs t)) as [p|] eqn:Hp;
    simpl; [|discriminate].
  rewrite collect_phase_run. intros H. injection H as <-.
  exists p. destruct (results_stanza self t); simpl.
  - eexists. split; [reflexivity|]. split.
    + rewrite <- app_assoc. reflexivity.
    + eexists. split; reflexivity.
  - exists []. auto.
Qed.

(** C2. For a template without input artifacts, [render] returns a
    pipeline with no prepare step: the run step comes first, its template
    declares the input parameters of the original template, and the step
    passes, for each of them and for nothing else, the placeholder
    reference to the input of the same name that the pipeline declares. *)
Theorem render_without_input_artifacts (yaml_dump : Manifest -> string)
  (self : SlurmJobTemplate) (t : Template) :
  in_artifacts (t_inputs t) = [] ->
  exists c run tail,
    render yaml_dump self t = Ok c
    /\ steps_steps c = run :: tail
    /\ st_name run = "slurm-run"
    /\ ~ In "slurm-prepare" (step_names c)
    /\ in_parameters (template_inputs (st_template run))
       = in_parameters (t_inputs t)
    /\ (forall n, In n (Dict.keys (st_parameters run))
                  <-> In n (Dict.keys (in_parameters (t_inputs t))))
    /\ (forall n, In n (Dict.keys (in_parameters (t_inputs t))) ->
                  Dict.get (st_parameters run) n
                  = Some (ArgStr ("{{inputs.parameters." ++ n ++ "}}"))
                  /\ In n (Dict.keys (in_parameters (steps_inputs c)))).
Proof.
  intros Hnone.
  assert (Hpaths : declares_paths t).
  { unfold declares_paths. rewrite Hnone. constructor. }
  destruct (render_total yaml_dump self t Hpaths) as (c & Hr).
  destruct (render_steps _ _ _ _ Hr) as (p & tail & Hp & Hsteps & Htail).
  destruct (render_interface _ _ _ _ Hr) as (_ & Hi & _).
  rewrite (prepare_phase_skipped self t _ Hnone) in Hp.
  injection Hp as <-. simpl in Hsteps.
  exists c. exists (make_run_step yaml_dump self t (declare_inputs t) None
                     (results_stanza self t)), tail.
  split; [exact Hr|]. split; [exact Hsteps|]. split; [reflexivity|].
  split; [|split; [reflexivity|split]].
  - unfold step_names. rewrite Hsteps. simpl.
    intros [H|H]; [discriminate|].
    destruct (results_stanza self t).
    + destruct Htail as (collect & -> & Hname). simpl in H.
      rewrite Hname in H. destruct H as [H|[]]. discriminate.
    + subst tail. destruct H.
  - intros n. simpl. apply in_keys_set_each.
  - intros n Hn. split.
    + simpl. apply (get_set_each (fun k => ArgStr (input_parameter_ref k))).
      exact Hn.
    + rewrite Hi. simpl. apply in_keys_set_each. exact Hn.
Qed.

(** [greet] has no input artifact: its pipeline starts with the run step,
    which is passed the reference to the input [msg]. *)
Lemma render_without_input_artifacts_greet :
  in_artifacts (t_inputs greet) = []
  /\ exists c run tail,
       render dump_batch default_executor greet = Ok c
       /\ steps_steps c = run :: tail
       /\ st_name run = "slurm-run"
       /\ ~ In "slurm-prepare" (step_names c)
       /\ in_parameters (template_inputs (st_template run))
          = in_parameters (t_inputs greet)
       /\ (forall n, In n (Dict.keys (st_parameters run))
                     <-> In n (Dict.keys (in_parameters (t_inputs greet))))
       /\ (forall n, In n (Dict.keys (in_parameters (t_inputs greet))) ->
                     Dict.get (st_parameters run) n
                     = Some (ArgStr ("{{inputs.parameters." ++ n ++ "}}"))
                     /\ In n (Dict.keys (in_parameters (steps_inputs c)))).
Proof.
  split; [reflexivity|].
  exact (render_without_input_artifacts dump_batch default_executor greet
           eq_refl).
Defined.

(** The arguments a loop of [render] puts in a dictionary all satisfy what
    each value the loop computes satisfies. *)
Lemma values_set {V : Type} (Q : V -> Prop) (d : Dict.t V) (k : string)
  (v : V) :
  Forall Q (Dict.values d) -> Q v -> Forall Q (Dict.values (Dict.set d k v)).
Proof.
  intros Hd Hv. induction d as [|[k0 v0] d IH]; simpl.
  - constructor; auto.
  - inversion Hd; subst.
    destruct (String.eqb k0 k); simpl; constructor; auto.
Qed.

Lemma values_set_each {V W : Type} (Q : W -> Prop) (f : string -> W)
  (src : Dict.t V) :
  (forall k, Q (f k)) ->
  Forall Q (Dict.values (Dict.set_each f src Dict.empty)).
Proof.
  intros Hf. unfold Dict.set_each.
  generalize (@Dict.empty W) (Forall_nil Q : Forall Q (Dict.values Dict.empty)).
  induction (Dict.keys src) as [|k ks IH]; intros d Hd; simpl; auto.
  apply IH. apply values_set; auto.
Qed.

(** After [d[k] = v], exactly one value of [d] satisfies a test that [v]
    passes and no other value of [d] does. *)
Lemma count_after_set {V : Type} (test : V -> bool) (d : Dict.t V)
  (k : string) (v : V) :
  Forall (fun x => test x = false) (Dict.values d) ->
  test v = true ->
  List.length (filter test (Dict.values (Dict.set d k v))) = 1%nat.
Proof.
  intros Hd Hv. induction d as [|[k0 v0] d IH]; simpl.
  - rewrite Hv. reflexivity.
  - inversion Hd as [|? ? H0 Hd']; subst.
    destruct (String.eqb k0 k); simpl.
    + rewrite Hv. simpl. f_equal.
      clear IH Hd. induction Hd' as [|x l Hx _ IHl]; simpl; auto.
      rewrite Hx. exact IHl.
    + rewrite H0. apply IH, Hd'.
Qed.

(** C3. For a template with at least one input artifact, [render] returns
    a pipeline whose first step is the prepare step and whose second is the
    run step; the template of the prepare step declares one output
    parameter, [dflow_vol_path], and among the arguments of the run step
    exactly one is the placeholder reference to that output: the one
    passed to the input parameter [dflow_vol_path], which the run template
    declares. *)
Theorem render_with_input_artifacts (yaml_dump : Manifest -> string)
  (self : SlurmJobTemplate) (t : Template) :
  declares_paths t ->
  in_artifacts (t_inputs t) <> [] ->
  exists c prepare run tail,
    render yaml_dump self t = Ok c
    /\ steps_steps c = prepare :: run :: tail
    /\ st_name prepare = "slurm-prepare"
    /\ st_name run = "slurm-run"
    /\ Dict.keys (out_parameters (template_outputs (st_template prepare)))
       = ["dflow_vol_path"]
    /\ List.length (filter references_prepare_output
                      (Dict.values (st_parameters run))) = 1%nat
    /\ Dict.get (st_parameters run) "dflow_vol_path"
       = Some (ArgStr
                 "{{steps.slurm-prepare.outputs.parameters.dflow_vol_path}}")
    /\ Dict.get (in_parameters (template_inputs (st_template run)))
         "dflow_vol_path"
       = Some (mkInputParameter None None).
Proof.
  intros Hpaths Hsome.
  destruct (render_total yaml_dump self t Hpaths) as (c & Hr).
  destruct (render_steps _ _ _ _ Hr) as (p & tail & Hp & Hsteps & _).
  destruct (prepare_phase_run self t Hpaths Hsome)
    as (pt & arts & stanza & Hpt & Hphase).
  rewrite Hphase in Hp. injection Hp as <-. simpl in Hsteps.
  exists c. eexists. eexists. exists tail.
  split; [exact Hr|]. split; [exact Hsteps|].
  split; [reflexivity|]. split; [reflexivity|]. split; [|split; [|split]].
  - simpl. unfold make_prepare_template in Hpt.
    destruct (prepare_script _ _); simpl in Hpt; [|discriminate].
    injection Hpt as <-. reflexivity.
  - simpl. apply count_after_set; [|reflexivity].
    apply values_set_each. intros k. reflexivity.
  - simpl. apply get_set_same.
  - simpl. apply get_set_same.
Qed.

(** [calc] has an input artifact: the prepare step comes first and the
    run step refers once to its output. *)
Lemma render_with_input_artifacts_calc :
  declares_paths calc
  /\ in_artifacts (t_inputs calc) <> []
  /\ exists c prepare run tail,
       render dump_batch default_executor calc = Ok c
       /\ steps_steps c = prepare :: run :: tail
       /\ st_name prepare = "slurm-prepare"
       /\ st_name run = "slurm-run"
       /\ Dict.keys (out_parameters (template_outputs (st_template prepare)))
          = ["dflow_vol_path"]
       /\ List.length (filter references_prepare_output
                         (Dict.values (st_parameters run))) = 1%nat
       /\ Dict.get (st_parameters run) "dflow_vol_path"
          = Some (ArgStr
                    "{{steps.slurm-prepare.outputs.parameters.dflow_vol_path}}")
       /\ Dict.get (in_parameters (template_inputs (st_template run)))
            "dflow_vol_path"
          = Some (mkInputParameter None None).
Proof.
  assert (H : declares_paths calc).
  { unfold declares_paths. simpl. repeat constructor. discriminate. }
  assert (Hne : in_artifacts (t_inputs calc) <> []).
  { simpl. discriminate. }
  split; [exact H|]. split; [exact Hne|].
  exact (render_with_input_artifacts dump_batch default_executor calc H Hne).
Defined.

(** C4. For a template with no output parameter and no output artifact,
    [render] returns a pipeline with no collect step that declares no
    output parameter and no output artifact. *)
Theorem render_without_outputs (yaml_dump : Manifest -> string)
  (self : SlurmJobTemplate) (t : Template) :
  declares_paths t ->
  out_parameters (t_outputs t) = [] ->
  out_artifacts (t_outputs t) = [] ->
  exists c,
    render yaml_dump self t = Ok c
    /\ ~ In "slurm-collect" (step_names c)
    /\ out_parameters (steps_outputs c) = []
    /\ out_artifacts (steps_outputs c) = [].
Proof.
  intros Hpaths Hpar Hart.
  destruct (render_total yaml_dump self t Hpaths) as (c & Hr).
  destruct (render_steps _ _ _ _ Hr) as (p & tail & Hp & Hsteps & Htail).
  destruct (render_interface _ _ _ _ Hr) as (_ & _ & Ho).
  assert (Hres : results_stanza self t = None).
  { unfold results_stanza. rewrite Hpar, Hart. reflexivity. }
  rewrite Hres in Htail, Ho. subst tail.
  exists c. split; [exact Hr|]. split; [|rewrite Ho; auto].
  unfold step_names. rewrite Hsteps, map_app, in_app_iff. simpl.
  intros [H|[H|[]]]; [|discriminate].
  unfold prepare_phase in Hp.
  destruct (Dict.truthy (in_artifacts (t_inputs t))).
  - destruct (make_prepare_template self t (declare_inputs t)); simpl in Hp;
      [|discriminate].
    destruct (copy_each _ _ _); simpl in Hp; [|discriminate].
    injection Hp as <-. simpl in H. destruct H as [H|[]]. discriminate.
  - injection Hp as <-. destruct H.
Qed.

(** [archive] has an input artifact and no output: its pipeline has no
    collect step and declares no output. *)
Lemma render_without_outputs_archive :
  declares_paths archive
  /\ out_parameters (t_outputs archive) = []
  /\ out_artifacts (t_outputs archive) = []
  /\ exists c,
       render dump_batch default_executor archive = Ok c
       /\ ~ In "slurm-collect" (step_names c)
       /\ out_parameters (steps_outputs c) = []
       /\ out_artifacts (steps_outputs c) = [].
Proof.
  assert (H : declares_paths archive).
  { unfold declares_paths. simpl. repeat constructor. discriminate. }
  split; [exact H|]. split; [reflexivity|]. split; [reflexivity|].
  exact (render_without_outputs dump_batch default_executor archive H
           eq_refl eq_refl).
Defined.

(** ** Claims on [SlurmJob] *)

(** C5. Whatever the arguments of the constructor, a [SlurmJob] has the
    success condition [status.status == Succeeded] and the failure
    condition [status.status == Failed]; [get_manifest] leaves them alone,
    and they are the conditions of the resource of the run template that
    [render] builds, for every executor and template. *)
Theorem conditions_fixed (yaml_dump : Manifest -> string)
  (header : string) (node_selector : option (Dict.t string))
  (prepare : option PrepareStanza) (results : option ResultsStanza)
  (map_tmp_dir : bool) (workdir : string) (remote_command : CommandArg)
  (self : SlurmJobTemplate) (t : Template) (new_template : Steps) :
  let job := SlurmJob_init header node_selector prepare results map_tmp_dir
               workdir remote_command in
  let resource :=
    sc_resource (make_run_template yaml_dump self t new_template prepare
                   results) in
  sj_success_condition job = "status.status == Succeeded"
  /\ sj_failure_condition job = "status.status == Failed"
  /\ rt_success_condition resource = "status.status == Succeeded"
  /\ rt_failure_condition resource = "status.status == Failed".
Proof. repeat split. Qed.

(** C6. The batch text of the manifest is the header, a line
    [mkdir -p <workdir>], a line [cd <workdir>], the line
    [cat <<EOF <filter> | <command>], the script and the line [EOF]. The
    filter is the text [ | sed "s#/tmp#$(pwd)/tmp#g" ] when [map_tmp_dir]
    is set and empty otherwise; the command is the configured remote
    command, a string as it is and a list joined with spaces, and the
    command of the template when none is configured. *)
Theorem batch_format (yaml_dump : Manifest -> string)
  (header : string) (node_selector : option (Dict.t string))
  (prepare : option PrepareStanza) (results : option ResultsStanza)
  (map_tmp_dir : bool) (workdir : string) (remote_command : CommandArg)
  (t : Template) :
  let job := SlurmJob_init header node_selector prepare results map_tmp_dir
               workdir remote_command in
  let filter :=
    if map_tmp_dir
    then " | sed " ++ Py.dq ++ "s#/tmp#$(pwd)/tmp#g" ++ Py.dq ++ " "
    else EmptyString in
  let command :=
    match remote_command with
    | CmdNone => Py.join " " (t_command t)
    | CmdStr s => s
    | CmdList l => Py.join " " l
    end in
  get_manifest yaml_dump job t = yaml_dump (manifest_dict job t)
  /\ m_spec_batch (manifest_dict job t)
     = header ++ Py.nl ++ "mkdir -p " ++ workdir ++ Py.nl
       ++ "cd " ++ workdir ++ Py.nl
       ++ "cat <<EOF " ++ filter ++ " | " ++ command ++ Py.nl
       ++ t_script t ++ Py.nl ++ "EOF".
Proof.
  intros job filter command. split; [reflexivity|].
  subst job filter command. simpl. unfold batch. simpl.
  destruct remote_command; reflexivity.
Qed.

(** ** The example of the specification *)

(** C7, as stated, fails: the prepare script of the pipeline for [calc]
    stages under [/workdir], so it holds neither [mkdir -p /in] nor a copy
    to [/workdir/in/input.json], and the collect script copies from
    [/mnt/workdir//out/out.json]. *)
Lemma calc_scripts_differ :
  ~ (exists c prepare_script collect_script,
        render dump_batch default_executor calc = Ok c
        /\ steps_name c = "calc-slurm"
        /\ step_names c = ["slurm-prepare"; "slurm-run"; "slurm-collect"]
        /\ step_script c "slurm-prepare" = Some prepare_script
        /\ step_script c "slurm-collect" = Some collect_script
        /\ Py.contains "mkdir -p /in" prepare_script = true
        /\ Py.contains "cp -r /in/input.json /workdir/in/input.json"
             prepare_script = true
        /\ Py.contains
             "mkdir -p `dirname /out/out.json` && cp -r /mnt/workdir/out/out.json /out/out.json"
             collect_script = true).
Proof.
  intros (c & ps & cs & Hr & _ & _ & Hps & _ & Hmk & _).
  vm_compute in Hr. injection Hr as <-.
  vm_compute in Hps. injection Hps as <-.
  vm_compute in Hmk. discriminate.
Qed.

(** C7, amended. For every executor, the template [calc] is rewritten
    into the pipeline [calc-slurm] with the steps [slurm-prepare],
    [slurm-run] and [slurm-collect]; the prepare script is made of the
    lines [mkdir -p /workdir//in] and
    [cp -r /in/input.json /workdir//in/input.json], and the collect script
    of the line that makes the directory of [/out/out.json] and copies
    [/mnt/workdir//out/out.json] to it. *)
Theorem calc_pipeline (yaml_dump : Manifest -> string)
  (self : SlurmJobTemplate) (script : string) (command : list string) :
  exists c prepare_script collect_script,
    render yaml_dump self (calc_template script command) = Ok c
    /\ steps_name c = "calc-slurm"
    /\ step_names c = ["slurm-prepare"; "slurm-run"; "slurm-collect"]
    /\ step_script c "slurm-prepare" = Some prepare_script
    /\ step_script c "slurm-collect" = Some collect_script
    /\ Py.lines prepare_script
       = ["mkdir -p /workdir//in";
          "cp -r /in/input.json /workdir//in/input.json";
          EmptyString]
    /\ Py.lines collect_script
       = ["mkdir -p `dirname /out/out.json` && cp -r /mnt/workdir//out/out.json /out/out.json";
          EmptyString].
Proof.
  eexists. eexists. eexists.
  split; [reflexivity|].
  repeat split.
Qed.

(** ** Strings *)

Lemma append_assoc (a b c : string) : (a ++ b) ++ c = a ++ (b ++ c).
Proof.
  induction a as [|x a IH]; simpl; [reflexivity|].
  rewrite IH. reflexivity.
Qed.

Lemma chars_append (a b : string) :
  list_ascii_of_string (a ++ b)
  = (list_ascii_of_string a ++ list_ascii_of_string b)%list.
Proof.
  induction a as [|x a IH]; simpl; [reflexivity|].
  rewrite IH. reflexivity.
Qed.

Lemma string_of_chars_app (a b : list ascii) :
  string_of_list_ascii (a ++ b)
  = string_of_list_ascii a ++ string_of_list_ascii b.
Proof.
  induction a as [|x a IH]; simpl; [reflexivity|].
  rewrite IH. reflexivity.
Qed.

Lemma strip_prefix_chars_app (p x : list ascii) :
  strip_prefix_chars p (p ++ x) = Some x.
Proof.
  induction p as [|a p IH]; simpl; [reflexivity|].
  rewrite Ascii.eqb_refl. exact IH.
Qed.

Lemma strip_prefix_app (p x : string) : strip_prefix p (p ++ x) = Some x.
Proof.
  unfold strip_prefix. rewrite chars_append, strip_prefix_chars_app. simpl.
  rewrite string_of_list_ascii_of_string. reflexivity.
Qed.

Lemma strip_suffix_app (suf x : string) : strip_suffix suf (x ++ suf) = Some x.
Proof.
  unfold strip_suffix.
  rewrite chars_append, rev_app_distr, strip_prefix_chars_app. simpl.
  rewrite rev_involutive, string_of_list_ascii_of_string. reflexivity.
Qed.

(** A text that ends with the characters [a] and [c] does not end with a
    suffix whose last characters are [b] and [c], for [a] other than
    [b]. *)
Lemma strip_suffix_mismatch (suf x : string) (a b c : ascii) :
  a <> b ->
  strip_suffix (suf ++ String b (String c EmptyString))
    (x ++ String a (String c EmptyString)) = None.
Proof.
  intros Hab. unfold strip_suffix.
  rewrite !chars_append, !rev_app_distr. simpl.
  rewrite Ascii.eqb_refl.
  destruct (Ascii.eqb_spec b a); [congruence | reflexivity].
Qed.

(** ** The commands of the submission script *)

(** The command that writes [slurm.sh] is one line of the script, closed
    by a line feed, and is followed neither by [|| exit 1] nor by the
    redirection to the parameter file. *)
Lemma write_slurm_sh_line (self : SlurmRemoteExecutor) (image : string)
  (remote_command : list string) :
  exists cmd,
    write_slurm_sh self image remote_command
    = cmd ++ String "h" (String "010" EmptyString).
Proof.
  unfold write_slurm_sh, Py.nl.
  destruct (docker_executable self) as [docker|].
  - eexists. rewrite <- !append_assoc.
    change (" /script' > slurm.sh") with
      (" /script' > slurm.s" ++ String "h" EmptyString).
    rewrite <- !append_assoc. rewrite append_assoc. reflexivity.
  - eexists. rewrite <- !append_assoc.
    change (" script' > slurm.sh") with
      (" script' > slurm.s" ++ String "h" EmptyString).
    rewrite <- !append_assoc. rewrite append_assoc. reflexivity.
Qed.

Lemma param_entry_echo (line : string) :
  param_entry (echo_param line) = Some line.
Proof.
  unfold param_entry, echo_param.
  rewrite <- append_assoc, strip_suffix_app. apply strip_prefix_app.
Qed.

Lemma param_entry_write (self : SlurmRemoteExecutor) (image : string)
  (remote_command : list string) :
  param_entry (write_slurm_sh self image remote_command) = None.
Proof.
  destruct (write_slurm_sh_line self image remote_command) as [cmd ->].
  unfold param_entry, Py.nl.
  change ("' >> param.yaml" ++ String "010" EmptyString)
    with ("' >> param.yam" ++ String "l" (String "010" EmptyString)).
  rewrite strip_suffix_mismatch; [reflexivity | discriminate].
Qed.

Lemma param_entry_or_exit (cmd : string) :
  param_entry (cmd ++ " || exit 1" ++ Py.nl) = None.
Proof.
  unfold param_entry, Py.nl.
  change (cmd ++ " || exit 1" ++ String "010" EmptyString)
    with (cmd ++ " || exit " ++ String "1" (String "010" EmptyString)).
  rewrite <- append_assoc.
  change ("' >> param.yaml" ++ String "010" EmptyString)
    with ("' >> param.yam" ++ String "l" (String "010" EmptyString)).
  rewrite strip_suffix_mismatch; [reflexivity | discriminate].
Qed.

(** The parameter file, line by line. *)
Lemma param_file_lines
  (upload : SlurmRemoteExecutor -> string -> string -> string)
  (self : SlurmRemoteExecutor) (image : string) (remote_command : list string) :
  param_file upload self image remote_command
  = List.app
      [ "jobIdFile: " ++ match pvc self with
                         | Some _ => "/mnt/job_id.txt"
                         | None => "/tmp/job_id.txt"
                         end;
        "workdir: " ++ workdir self;
        "scriptFile: slurm.sh";
        "interval: " ++ Py.str_int (interval self);
        "host: " ++ host self;
        "port: " ++ Py.str_int (port self);
        "username: " ++ username self ]
      match password self with
      | Some p => ["password: " ++ p]
      | None => []
      end.
Proof.
  unfold param_file, run_appends.
  rewrite flat_map_app. cbn [flat_map].
  rewrite param_entry_write.
  change ("./bin/slurm param.yaml || exit 1" ++ Py.nl)
    with ("./bin/slurm param.yaml" ++ " || exit 1" ++ Py.nl).
  rewrite !param_entry_or_exit, !param_entry_echo.
  assert (Hjob : param_entry
                   match pvc self with
                   | Some _ => echo_param "jobIdFile: /mnt/job_id.txt"
                   | None => echo_param "jobIdFile: /tmp/job_id.txt"
                   end
                 = Some ("jobIdFile: " ++ match pvc self with
                                          | Some _ => "/mnt/job_id.txt"
                                          | None => "/tmp/job_id.txt"
                                          end)).
  { destruct (pvc self); apply param_entry_echo. }
  rewrite Hjob. cbn [app]. rewrite flat_map_app.
  destruct (password self) as [p|]; cbn [flat_map app].
  - rewrite param_entry_echo, param_entry_or_exit. reflexivity.
  - rewrite param_entry_or_exit. reflexivity.
Qed.

(** ** The header of the executor *)

Lemma re_sub_match (c : ascii) (s rest : list ascii) :
  match_spaces_hash (c :: s) = Some rest ->
  re_sub_spaces_hash (c :: s) = "#"%char :: re_sub_spaces_hash rest.
Proof.
  intros H. rewrite re_sub_spaces_hash_equation_2.
  generalize (inspect (match_spaces_hash (c :: s))).
  intros [[r|] e]; simpl.
  - rewrite H in e. injection e as <-. reflexivity.
  - rewrite H in e. discriminate.
Qed.

Lemma re_sub_no_match (c : ascii) (s : list ascii) :
  match_spaces_hash (c :: s) = None ->
  re_sub_spaces_hash (c :: s) = c :: re_sub_spaces_hash s.
Proof.
  intros H. rewrite re_sub_spaces_hash_equation_2.
  generalize (inspect (match_spaces_hash (c :: s))).
  intros [[r|] e]; simpl.
  - rewrite H in e. discriminate.
  - reflexivity.
Qed.

Lemma match_after_spaces (n : nat) (s : list ascii) :
  match_spaces_hash (repeat " "%char n ++ s) = match_spaces_hash s.
Proof. induction n as [|n IH]; simpl; auto. Qed.

(** Spaces that no [#] follows are kept. *)
Lemma re_sub_keeps_spaces (n : nat) (s : list ascii) :
  match_spaces_hash s = None ->
  re_sub_spaces_hash (repeat " "%char n ++ s)
  = (repeat " "%char n ++ re_sub_spaces_hash s)%list.
Proof.
  intros Hs. induction n as [|n IH]; simpl; [reflexivity|].
  rewrite re_sub_no_match.
  - rewrite IH. reflexivity.
  - simpl. rewrite match_after_spaces. exact Hs.
Qed.

(** Spaces that a [#] follows go with it. *)
Lemma re_sub_drops_spaces (n : nat) (s rest : list ascii) :
  match_spaces_hash s = Some rest ->
  re_sub_spaces_hash (repeat " "%char n ++ s)
  = "#"%char :: re_sub_spaces_hash rest.
Proof.
  intros Hs. destruct n as [|n]; simpl.
  - destruct s as [|c s]; [discriminate|]. apply re_sub_match, Hs.
  - apply re_sub_match. simpl. rewrite match_after_spaces. exact Hs.
Qed.

(** The scan of [re.sub] deletes the runs of spaces before a [#], and
    only them. *)
Lemma re_sub_deletes_runs (s : list ascii) (n : nat) :
  re_sub_spaces_hash (repeat " "%char n ++ s)
  = delete_space_runs_before_hash n s.
Proof.
  revert n. induction s as [|c s IH]; intros n.
  - rewrite re_sub_keeps_spaces by reflexivity.
    rewrite re_sub_spaces_hash_equation_1, app_nil_r. reflexivity.
  - cbn [delete_space_runs_before_hash].
    destruct (Ascii.eqb_spec c " "%char) as [->|Hsp].
    + rewrite <- IH. f_equal.
      change (" "%char :: s) with ([" "%char] ++ s)%list.
      rewrite app_assoc, <- repeat_cons. reflexivity.
    + destruct (Ascii.eqb_spec c "#"%char) as [->|Hh].
      * rewrite (re_sub_drops_spaces n _ s) by reflexivity.
        rewrite <- (IH 0%nat). reflexivity.
      * assert (Hno : match_spaces_hash (c :: s) = None).
        { simpl. apply Ascii.eqb_neq in Hsp, Hh. rewrite Hsp, Hh.
          reflexivity. }
        rewrite re_sub_keeps_spaces by exact Hno.
        rewrite re_sub_no_match by exact Hno.
        rewrite <- (IH 0%nat). reflexivity.
Qed.

Lemma fold_append_prefix (l : list string) (a b : string) :
  fold_left String.append l (a ++ b) = a ++ fold_left String.append l b.
Proof.
  revert b. induction l as [|x l IH]; intros b; simpl; [reflexivity|].
  rewrite append_assoc. apply IH.
Qed.

Lemma append_empty_r (a : string) : a ++ EmptyString = a.
Proof.
  induction a as [|x a IH]; simpl; [reflexivity|].
  rewrite IH. reflexivity.
Qed.

Lemma fold_append_cons (x : string) (l : list string) :
  fold_left String.append (x :: l) EmptyString
  = x ++ fold_left String.append l EmptyString.
Proof.
  cbn [fold_left String.append].
  rewrite <- (append_empty_r x) at 1. apply fold_append_prefix.
Qed.

(** C10. The constructor stores the header with every maximal run of
    spaces that stands immediately before a [#] deleted and nothing else
    changed; the stored header can differ from the one supplied, and it is
    the stored header that the generated script writes, in both forms of
    the command that writes [slurm.sh]. *)
Theorem header_normalized
  (upload : SlurmRemoteExecutor -> string -> string -> string)
  (on_host : string) (on_port : Z) (user : string) (pass : option string)
  (key_file : option string) (dir : string)
  (cmd remote_cmd : CommandArg) (img : string)
  (map_tmp : bool) (docker : option string)
  (retries : Z) (supplied : string) (every : Z) (volume : option PVC)
  (run_image : string) (run_command : list string) :
  let self :=
    SlurmRemoteExecutor_init on_host on_port user pass key_file dir cmd
      remote_cmd img map_tmp docker retries supplied every volume in
  header self
  = string_of_list_ascii
      (delete_space_runs_before_hash 0 (list_ascii_of_string supplied))
  /\ (exists tail,
         run upload self run_image run_command
         = "echo '" ++ header self ++ Py.nl ++ tail)
  /\ normalize_header "  #SBATCH -N 1" = "#SBATCH -N 1"
  /\ String.eqb (normalize_header "  #SBATCH -N 1") "  #SBATCH -N 1" = false.
Proof.
  intros self. split; [|split; [|split]].
  - subst self. cbn [header SlurmRemoteExecutor_init].
    unfold normalize_header.
    rewrite <- (re_sub_deletes_runs _ 0). reflexivity.
  - unfold run, run_appends. cbn [app].
    rewrite fold_append_cons. unfold write_slurm_sh.
    destruct (docker_executable self);
      rewrite !append_assoc; eexists; reflexivity.
  - reflexivity.
  - reflexivity.
Qed.

(** * Further properties *)

(** ** The shape of the pipeline *)

(** The collect step that [render] adds when the template has outputs. *)
Lemma render_cases (yaml_dump : Manifest -> string)
  (self : SlurmJobTemplate) (t : Template) (c : Steps) :
  render yaml_dump self t = Ok c ->
  exists pre prepare,
    ((in_artifacts (t_inputs t) = [] /\ pre = [] /\ prepare = None)
     \/ (in_artifacts (t_inputs t) <> []
         /\ prepare
            = Some (mkPrepare (sjt_workdir self)
                      (mkHostPathMount "workdir"
                         "{{inputs.parameters.dflow_vol_path}}"
                         "DirectoryOrCreate"))
         /\ exists pt arts,
             make_prepare_template self t (declare_inputs t) = Ok pt
             /\ copy_each (in_artifacts (steps_inputs (declare_inputs t)))
                  (Dict.keys (in_artifacts (t_inputs t))) Dict.empty
                = Ok arts
             /\ pre = [mkStep "slurm-prepare" (ShellOP pt) Dict.empty arts]))
    /\ steps_steps c
       = List.app pre
           (make_run_step yaml_dump self t (declare_inputs t) prepare
              (results_stanza self t)
            :: match results_stanza self t with
               | Some _ =>
                   [mkStep "slurm-collect"
                      (ShellOP
                         (make_collect_template self t (declare_inputs t)))
                      (Dict.set Dict.empty "dflow_vol_path"
                         (ArgStepOutput
                            (mkStepOutputParameter "slurm-run"
                               "dflow_vol_path"
                               (mkOutputParameter None
                                  (Some "/tmp/{{pod.name}}") None None))))
                      Dict.empty]
               | None => []
               end).
Proof.
  unfold render.
  destruct (prepare_phase self t (declare_inputs t)) as [p|] eqn:Hp;
    simpl; [|discriminate].
  rewrite collect_phase_run. intros H. injection H as <-.
  unfold prepare_phase in Hp.
  destruct (in_artifacts (t_inputs t)) as [|a l] eqn:E.
  - simpl in Hp. injection Hp as <-. exists [], None.
    split; [left; auto|]. simpl.
    destruct (results_stanza self t); reflexivity.
  - rewrite <- E in *.
    rewrite truthy_true in Hp by (rewrite E; discriminate).
    destruct (make_prepare_template self t (declare_inputs t)) as [pt|] eqn:Hpt;
      simpl in Hp; [|discriminate].
    destruct (copy_each _ _ _) as [arts|] eqn:Harts; simpl in Hp;
      [|discriminate].
    injection Hp as <-.
    eexists. eexists. split.
    + right. split; [rewrite E; discriminate|]. split; [reflexivity|].
      exists pt, arts. split; [reflexivity|]. split; reflexivity.
    + simpl. destruct (results_stanza self t); reflexivity.
Qed.

Lemma results_stanza_some (self : SlurmJobTemplate) (t : Template) :
  (exists r, results_stanza self t = Some r)
  <-> out_parameters (t_outputs t) <> [] \/ out_artifacts (t_outputs t) <> [].
Proof.
  unfold results_stanza.
  destruct (out_parameters (t_outputs t)), (out_artifacts (t_outputs t));
    simpl; split.
  all: try (intros [r H]; discriminate).
  all: try (intros [H|H]; congruence).
  all: try (intros _; eexists; reflexivity).
  all: intros _; first [left; discriminate | right; discriminate].
Qed.

(** X1. The pipeline has the prepare step when the template has input
    artifacts, then the run step, then the collect step when the template
    has outputs, and nothing else; the template of each step is named
    after the pipeline and the phase. *)
Theorem render_step_sequence (yaml_dump : Manifest -> string)
  (self : SlurmJobTemplate) (t : Template) :
  declares_paths t ->
  exists c,
    render yaml_dump self t = Ok c
    /\ step_names c
       = List.app
           (if Dict.truthy (in_artifacts (t_inputs t))
            then ["slurm-prepare"] else [])
           ("slurm-run"
            :: if Dict.truthy (out_parameters (t_outputs t))
                  || Dict.truthy (out_artifacts (t_outputs t))
               then ["slurm-collect"] else [])
    /\ map (fun s => template_name (st_template s)) (steps_steps c)
       = List.app
           (if Dict.truthy (in_artifacts (t_inputs t))
            then [t_name t ++ "-slurm-prepare"] else [])
           ((t_name t ++ "-slurm-run")
            :: if Dict.truthy (out_parameters (t_outputs t))
                  || Dict.truthy (out_artifacts (t_outputs t))
               then [t_name t ++ "-slurm-collect"] else []).
Proof.
  intros Hpaths.
  destruct (render_total yaml_dump self t Hpaths) as (c & Hr).
  exists c. split; [exact Hr|].
  destruct (render_cases _ _ _ _ Hr) as (pre & prepare & Hpre & Hsteps).
  unfold step_names. rewrite Hsteps, !map_app. cbn [map].
  assert (Hres : results_stanza self t
                 = if Dict.truthy (out_parameters (t_outputs t))
                      || Dict.truthy (out_artifacts (t_outputs t))
                   then results_stanza self t else None).
  { unfold results_stanza. destruct (_ || _); reflexivity. }
  assert (Hname : forall a b c0 : string, (a ++ b) ++ c0 = a ++ b ++ c0).
  { intros. apply append_assoc. }
  destruct Hpre as [(Hno & -> & ->)|(Hsome & -> & pt & arts & Hpt & _ & ->)].
  - rewrite Hno. cbn [Dict.truthy app map].
    unfold results_stanza.
    destruct (Dict.truthy (out_parameters (t_outputs t))
              || Dict.truthy (out_artifacts (t_outputs t)));
      cbn; rewrite ?Hname; split; reflexivity.
  - rewrite (truthy_true _ Hsome). cbn [app map st_name st_template].
    unfold make_prepare_template in Hpt.
    destruct (prepare_script _ _); simpl in Hpt; [|discriminate].
    injection Hpt as <-.
    unfold results_stanza.
    destruct (Dict.truthy (out_parameters (t_outputs t))
              || Dict.truthy (out_artifacts (t_outputs t)));
      cbn; rewrite ?Hname; split; reflexivity.
Qed.

(** The three steps of [calc]. *)
Lemma render_step_sequence_calc :
  declares_paths calc
  /\ exists c,
       render dump_batch default_executor calc = Ok c
       /\ step_names c = ["slurm-prepare"; "slurm-run"; "slurm-collect"].
Proof.
  assert (H : declares_paths calc).
  { unfold declares_paths. simpl. repeat constructor. discriminate. }
  split; [exact H|].
  destruct (render_step_sequence dump_batch default_executor calc H)
    as (c & Hr & Hn & _).
  exists c. split; [exact Hr | exact Hn].
Defined.

(** The run step of the pipeline, found by its name. *)
Lemma render_run_step (yaml_dump : Manifest -> string)
  (self : SlurmJobTemplate) (t : Template) (c : Steps) :
  render yaml_dump self t = Ok c ->
  find_step c "slurm-run"
  = Some (make_run_step yaml_dump self t (declare_inputs t)
            (if Dict.truthy (in_artifacts (t_inputs t))
             then Some (mkPrepare (sjt_workdir self)
                          (mkHostPathMount "workdir"
                             "{{inputs.parameters.dflow_vol_path}}"
                             "DirectoryOrCreate"))
             else None)
            (results_stanza self t)).
Proof.
  intros Hr.
  destruct (render_cases _ _ _ _ Hr) as (pre & prepare & Hpre & Hsteps).
  unfold find_step. rewrite Hsteps.
  destruct Hpre as [(Hno & -> & ->)|(Hsome & -> & pt & arts & _ & _ & ->)].
  - rewrite Hno. reflexivity.
  - rewrite (truthy_true _ Hsome). reflexivity.
Qed.

(** The collect step of the pipeline, found by its name. *)
Lemma render_collect_step (yaml_dump : Manifest -> string)
  (self : SlurmJobTemplate) (t : Template) (c : Steps) :
  render yaml_dump self t = Ok c ->
  out_parameters (t_outputs t) <> [] \/ out_artifacts (t_outputs t) <> [] ->
  find_step c "slurm-collect"
  = Some (mkStep "slurm-collect"
            (ShellOP (make_collect_template self t (declare_inputs t)))
            (Dict.set Dict.empty "dflow_vol_path"
               (ArgStepOutput
                  (mkStepOutputParameter "slurm-run" "dflow_vol_path"
                     (mkOutputParameter None (Some "/tmp/{{pod.name}}") None
                        None))))
            Dict.empty).
Proof.
  intros Hr Hout.
  destruct (render_cases _ _ _ _ Hr) as (pre & prepare & Hpre & Hsteps).
  apply (proj2 (results_stanza_some self t)) in Hout.
  destruct Hout as [r Hres].
  rewrite Hres in Hsteps.
  unfold find_step. rewrite Hsteps.
  destruct Hpre as [(_ & -> & ->)|(_ & -> & pt & arts & _ & _ & ->)];
    reflexivity.
Qed.

(** The prepare step of the pipeline, found by its name. *)
Lemma render_prepare_step (yaml_dump : Manifest -> string)
  (self : SlurmJobTemplate) (t : Template) (c : Steps) :
  render yaml_dump self t = Ok c ->
  in_artifacts (t_inputs t) <> [] ->
  exists pt arts,
    make_prepare_template self t (declare_inputs t) = Ok pt
    /\ copy_each (in_artifacts (steps_inputs (declare_inputs t)))
         (Dict.keys (in_artifacts (t_inputs t))) Dict.empty
       = Ok arts
    /\ find_step c "slurm-prepare"
       = Some (mkStep "slurm-prepare" (ShellOP pt) Dict.empty arts).
Proof.
  intros Hr Hsome.
  destruct (render_cases _ _ _ _ Hr) as (pre & prepare & Hpre & Hsteps).
  destruct Hpre as [(Hno & _)|(_ & -> & pt & arts & Hpt & Harts & ->)];
    [contradiction|].
  exists pt, arts. split; [exact Hpt|]. split; [exact Harts|].
  unfold find_step. rewrite Hsteps. reflexivity.
Qed.

(** ** The manifest of the run step *)

(** X2. The resource of the run template creates the job whose manifest
    is the serialization of this dictionary: the batch text runs in
    [<workdir>/workdir], always behind the [/tmp] filter, with the command
    of the executor or else of the template; [prepare] is present exactly
    when the template has input artifacts, and stages to [<workdir>];
    [results] is present exactly when the template has outputs, and
    collects from the directory the batch runs in. *)
Theorem run_manifest (yaml_dump : Manifest -> string)
  (self : SlurmJobTemplate) (t : Template) :
  declares_paths t ->
  exists c run rt,
    render yaml_dump self t = Ok c
    /\ find_step c "slurm-run" = Some run
    /\ st_template run = ScriptOP rt
    /\ rt_action (sc_resource rt) = "create"
    /\ rt_manifest (sc_resource rt)
       = yaml_dump
           {| m_apiVersion := "wlm.sylabs.io/v1alpha1";
              m_kind := "SlurmJob";
              m_metadata_name := "{{pod.name}}";
              m_spec_batch :=
                sjt_header self ++ Py.nl
                ++ "mkdir -p " ++ sjt_workdir self ++ "/workdir" ++ Py.nl
                ++ "cd " ++ sjt_workdir self ++ "/workdir" ++ Py.nl
                ++ "cat <<EOF " ++ sed_tmp_filter ++ " | "
                ++ Py.join " " match sjt_remote_command self with
                               | Some cmd => cmd
                               | None => t_command t
                               end
                ++ Py.nl ++ t_script t ++ Py.nl ++ "EOF";
              m_spec_nodeSelector := sjt_node_selector self;
              m_spec_prepare :=
                if Dict.truthy (in_artifacts (t_inputs t))
                then Some (mkPrepare (sjt_workdir self)
                             (mkHostPathMount "workdir"
                                "{{inputs.parameters.dflow_vol_path}}"
                                "DirectoryOrCreate"))
                else None;
              m_spec_results :=
                if Dict.truthy (out_parameters (t_outputs t))
                   || Dict.truthy (out_artifacts (t_outputs t))
                then Some (mkResults (sjt_workdir self ++ "/workdir")
                             (mkHostPathMount "mnt" "/tmp/{{pod.name}}"
                                "DirectoryOrCreate"))
                else None |}.
Proof.
  intros Hpaths.
  destruct (render_total yaml_dump self t Hpaths) as (c & Hr).
  exists c. eexists. eexists.
  split; [exact Hr|]. split; [exact (render_run_step _ _ _ _ Hr)|].
  split; [reflexivity|]. split; [reflexivity|].
  cbn [st_template make_run_step make_run_template sc_resource rt_manifest].
  unfold get_manifest. f_equal.
  unfold manifest_dict, batch, make_slurm_job, results_stanza.
  cbn [SlurmJob_init sj_header sj_workdir sj_map_tmp_dir sj_node_selector
       sj_prepare sj_results manifest_map_cmd].
  f_equal.
  unfold effective_command. cbn [SlurmJob_init sj_remote_command].
  rewrite !append_assoc.
  destruct (sjt_remote_command self); reflexivity.
Qed.

(** The manifest of the run step of [calc]. *)
Lemma run_manifest_calc :
  declares_paths calc
  /\ exists c run rt,
       render dump_batch default_executor calc = Ok c
       /\ find_step c "slurm-run" = Some run
       /\ st_template run = ScriptOP rt
       /\ rt_action (sc_resource rt) = "create".
Proof.
  assert (H : declares_paths calc).
  { unfold declares_paths. simpl. repeat constructor. discriminate. }
  split; [exact H|].
  destruct (run_manifest dump_batch default_executor calc H)
    as (c & run & rt & Hr & Hf & Ht & Ha & _).
  exists c, run, rt. auto.
Defined.

(** ** What [render] raises *)

(** X3. When an input artifact of the template declares no path,
    [render] raises [TypeError]: [os.path.dirname] is given [None] while
    the prepare script is written, before any step is built. *)
Theorem render_raises_type_error (yaml_dump : Manifest -> string)
  (self : SlurmJobTemplate) (t : Template) :
  Exists (fun art => ia_path art = None)
    (Dict.values (in_artifacts (t_inputs t))) ->
  render yaml_dump self t = Raise TypeError.
Proof.
  intros Hex.
  assert (Hscript : forall arts script,
             Exists (fun art => ia_path art = None) arts ->
             prepare_script script arts = Raise TypeError).
  { clear. intros arts script H. revert script.
    induction H as [art arts Hart|art arts _ IH]; intros script; simpl;
      unfold prepare_lines.
    - rewrite Hart. reflexivity.
    - destruct (ia_path art); simpl; [apply IH | reflexivity]. }
  unfold render, prepare_phase.
  assert (Hne : in_artifacts (t_inputs t) <> []).
  { intros E. rewrite E in Hex. inversion Hex. }
  rewrite (truthy_true _ Hne). unfold make_prepare_template.
  rewrite (Hscript _ EmptyString Hex). reflexivity.
Qed.

(** The input artifact of [pathless] has no path: [render] raises. *)
Lemma render_raises_without_path :
  Exists (fun art => ia_path art = None)
    (Dict.values (in_artifacts (t_inputs pathless)))
  /\ render dump_batch default_executor pathless = Raise TypeError.
Proof.
  assert (H : Exists (fun art => ia_path art = None)
                (Dict.values (in_artifacts (t_inputs pathless)))).
  { constructor. reflexivity. }
  split; [exact H|].
  exact (render_raises_type_error dump_batch default_executor pathless H).
Defined.

(** ** The wiring of the steps *)

Lemma get_in_keys {V : Type} (d : Dict.t V) (k : string) :
  In k (Dict.keys d) -> exists v, Dict.get d k = Some v.
Proof.
  induction d as [|[k0 v0] d IH]; simpl; [tauto|].
  intros [->|H].
  - rewrite String.eqb_refl. eauto.
  - destruct (String.eqb k0 k); eauto.
Qed.

Lemma copy_each_get {V : Type} (other : Dict.t V) (ks : list string)
  (d d' : Dict.t V) (k : string) :
  copy_each other ks d = Ok d' ->
  In k ks \/ Dict.get d k = Dict.get other k ->
  Dict.get d' k = Dict.get other k.
Proof.
  revert d. induction ks as [|k0 ks IH]; intros d; simpl.
  - intros H [[]|Hd]. injection H as <-. exact Hd.
  - destruct (Dict.get other k0) as [v|] eqn:E; [|discriminate].
    intros H Hk. apply (IH _ H).
    destruct (String.eqb_spec k0 k) as [->|Hne].
    + right. rewrite get_set_same. symmetry. exact E.
    + destruct Hk as [[Hk|Hk]|Hk]; [contradiction | left; exact Hk |].
      right. rewrite get_set_other by exact Hne. exact Hk.
Qed.

Lemma copy_each_keys {V : Type} (other : Dict.t V) (ks : list string)
  (d d' : Dict.t V) (k : string) :
  copy_each other ks d = Ok d' ->
  (In k (Dict.keys d') <-> In k ks \/ In k (Dict.keys d)).
Proof.
  revert d. induction ks as [|k0 ks IH]; intros d; simpl.
  - intros H. injection H as <-. tauto.
  - destruct (Dict.get other k0) as [v|]; [|discriminate].
    intros H. rewrite (IH _ H), in_keys_set. tauto.
Qed.

(** X4. Every output the original template declares is, on the pipeline,
    sourced from the collect step under the same name, and the collect
    template declares that output as the original template does: no
    reference of the pipeline points at an output that is missing. *)
Theorem outputs_come_from_collect (yaml_dump : Manifest -> string)
  (self : SlurmJobTemplate) (t : Template) :
  declares_paths t ->
  exists c,
    render yaml_dump self t = Ok c
    /\ (forall n,
           In n (Dict.keys (out_artifacts (t_outputs t))) ->
           exists collect decl,
             find_step c "slurm-collect" = Some collect
             /\ Dict.get (out_artifacts (steps_outputs c)) n
                = Some (mkOutputArtifact (Some n) None
                          (Some ("{{steps.slurm-collect.outputs.artifacts."
                                 ++ n ++ "}}")))
             /\ Dict.get (out_artifacts (t_outputs t)) n = Some decl
             /\ Dict.get
                  (out_artifacts (template_outputs (st_template collect))) n
                = Some decl)
    /\ (forall n,
           In n (Dict.keys (out_parameters (t_outputs t))) ->
           exists collect decl,
             find_step c "slurm-collect" = Some collect
             /\ Dict.get (out_parameters (steps_outputs c)) n
                = Some (mkOutputParameter (Some n) None None
                          (Some ("{{steps.slurm-collect.outputs.parameters."
                                 ++ n ++ "}}")))
             /\ Dict.get (out_parameters (t_outputs t)) n = Some decl
             /\ Dict.get
                  (out_parameters (template_outputs (st_template collect))) n
                = Some decl).
Proof.
  intros Hpaths.
  destruct (render_total yaml_dump self t Hpaths) as (c & Hr).
  exists c. split; [exact Hr|].
  destruct (render_interface _ _ _ _ Hr) as (_ & _ & Ho).
  split; intros n Hn.
  - assert (Hout : out_parameters (t_outputs t) <> []
                   \/ out_artifacts (t_outputs t) <> []).
    { right. intros E. rewrite E in Hn. destruct Hn. }
    destruct (proj2 (results_stanza_some self t) Hout) as [r Hres].
    rewrite Hres in Ho.
    destruct (get_in_keys _ _ Hn) as [decl Hdecl].
    eexists. exists decl.
    split; [exact (render_collect_step _ _ _ _ Hr Hout)|].
    split; [|split; [exact Hdecl | exact Hdecl]].
    rewrite Ho. simpl.
    apply (get_set_each
             (fun art_name =>
                mkOutputArtifact (Some art_name) None
                  (Some ("{{steps.slurm-collect.outputs.artifacts."
                         ++ art_name ++ "}}")))).
    exact Hn.
  - assert (Hout : out_parameters (t_outputs t) <> []
                   \/ out_artifacts (t_outputs t) <> []).
    { left. intros E. rewrite E in Hn. destruct Hn. }
    destruct (proj2 (results_stanza_some self t) Hout) as [r Hres].
    rewrite Hres in Ho.
    destruct (get_in_keys _ _ Hn) as [decl Hdecl].
    eexists. exists decl.
    split; [exact (render_collect_step _ _ _ _ Hr Hout)|].
    split; [|split; [exact Hdecl | exact Hdecl]].
    rewrite Ho. simpl.
    apply (get_set_each
             (fun par_name =>
                mkOutputParameter (Some par_name) None None
                  (Some ("{{steps.slurm-collect.outputs.parameters."
                         ++ par_name ++ "}}")))).
    exact Hn.
Qed.

(** The output artifact of [calc] comes from the collect step. *)
Lemma outputs_come_from_collect_calc :
  declares_paths calc
  /\ exists c,
       render dump_batch default_executor calc = Ok c
       /\ Dict.get (out_artifacts (steps_outputs c)) "out.json"
          = Some (mkOutputArtifact (Some "out.json") None
                    (Some "{{steps.slurm-collect.outputs.artifacts.out.json}}")).
Proof.
  assert (H : declares_paths calc).
  { unfold declares_paths. simpl. repeat constructor. discriminate. }
  split; [exact H|].
  destruct (outputs_come_from_collect dump_batch default_executor calc H)
    as (c & Hr & Harts & _).
  exists c. split; [exact Hr|].
  destruct (Harts "out.json") as (collect & decl & _ & Hget & _).
  { simpl. left. reflexivity. }
  exact Hget.
Defined.

(** The loop over the reserved names adds them, with the reference to the
    input of the pipeline as their value, and keeps the other entries. *)
Lemma in_keys_pass_dflow (src d : Dict.t InputParameter) (n : string) :
  In n (Dict.keys (pass_dflow_parameters src d))
  <-> In n (Dict.keys d)
      \/ (In n (Dict.keys src) /\ is_dflow_name n = true).
Proof.
  unfold pass_dflow_parameters, is_dflow_name.
  revert d. induction (Dict.keys src) as [|k ks IH]; intros d; simpl.
  - tauto.
  - rewrite IH.
    destruct (String.eqb (Py.slice_to 6 k) "dflow_") eqn:E.
    + rewrite in_keys_set. split.
      * intros [[<-|H]|[H1 H2]]; auto.
      * intros [H|[[<-|H1] H2]]; auto.
    + split.
      * intros [H|[H1 H2]]; auto.
      * intros [H|[[<-|H1] H2]]; auto. congruence.
Qed.

Lemma get_pass_dflow (src d : Dict.t InputParameter) (n : string) :
  In n (Dict.keys src) ->
  is_dflow_name n = true ->
  Dict.get (pass_dflow_parameters src d) n
  = Some (mkInputParameter None (Some ("{{inputs.parameters." ++ n ++ "}}"))).
Proof.
  unfold pass_dflow_parameters, is_dflow_name.
  assert (keep : forall ks d,
             Dict.get d n
             = Some (mkInputParameter None (Some (input_parameter_ref n))) ->
             Dict.get
               (fold_left
                  (fun acc name =>
                     if String.eqb (Py.slice_to 6 name) "dflow_"
                     then Dict.set acc name
                            (mkInputParameter None
                               (Some (input_parameter_ref name)))
                     else acc) ks d) n
             = Some (mkInputParameter None (Some (input_parameter_ref n)))).
  { intros ks. induction ks as [|k ks IH]; intros d0 Hd; simpl; auto.
    apply IH. destruct (String.eqb (Py.slice_to 6 k) "dflow_"); auto.
    destruct (String.eqb_spec k n) as [->|Hne].
    - apply get_set_same.
    - rewrite get_set_other; auto. }
  intros Hin Hn. revert d.
  induction (Dict.keys src) as [|k ks IH]; intros d; simpl; [destruct Hin|].
  destruct Hin as [->|Hin].
  - rewrite Hn. apply keep, get_set_same.
  - apply IH, Hin.
Qed.

(** X5. The prepare template declares, as input parameters, exactly the
    input parameters of the original template whose name starts with
    [dflow_], each with the reference to the pipeline's input of that name
    as its value; the collect template declares these and
    [dflow_vol_path]. *)
Theorem reserved_parameters_passed (self : SlurmJobTemplate) (t : Template)
  (new_template : Steps) (pt : ShellOPTemplate) :
  make_prepare_template self t new_template = Ok pt ->
  let ct := make_collect_template self t new_template in
  let params := in_parameters (t_inputs t) in
  (forall n, In n (Dict.keys (in_parameters (sh_inputs pt)))
             <-> In n (Dict.keys params) /\ is_dflow_name n = true)
  /\ (forall n, In n (Dict.keys (in_parameters (sh_inputs ct)))
                <-> n = "dflow_vol_path"
                    \/ (In n (Dict.keys params) /\ is_dflow_name n = true))
  /\ (forall n, In n (Dict.keys params) -> is_dflow_name n = true ->
                Dict.get (in_parameters (sh_inputs pt)) n
                = Some (mkInputParameter None
                          (Some ("{{inputs.parameters." ++ n ++ "}}")))
                /\ Dict.get (in_parameters (sh_inputs ct)) n
                   = Some (mkInputParameter None
                             (Some ("{{inputs.parameters." ++ n ++ "}}")))).
Proof.
  intros Hpt ct params. subst ct params.
  unfold make_prepare_template in Hpt.
  destruct (prepare_script _ _); simpl in Hpt; [|discriminate].
  injection Hpt as <-. simpl.
  split; [|split].
  - intros n. rewrite in_keys_pass_dflow. simpl. tauto.
  - intros n. rewrite in_keys_pass_dflow. simpl.
    split; intros [H|H]; auto.
    + destruct H as [H|[]]; auto.
  - intros n Hin Hn. split; apply get_pass_dflow; assumption.
Qed.

(** Of the parameters of [tagged], only [dflow_key] reaches the prepare
    template. *)
Lemma reserved_parameters_passed_tagged :
  exists pt,
    make_prepare_template default_executor tagged (declare_inputs tagged)
    = Ok pt
    /\ In "dflow_key" (Dict.keys (in_parameters (sh_inputs pt)))
    /\ ~ In "msg" (Dict.keys (in_parameters (sh_inputs pt))).
Proof.
  eexists. split; [reflexivity|].
  match goal with
  | |- In _ (Dict.keys (in_parameters (sh_inputs ?p))) /\ _ =>
      destruct (reserved_parameters_passed default_executor tagged
                  (declare_inputs tagged) p eq_refl) as (Hkeys & _)
  end.
  split.
  - apply Hkeys. split; [simpl; auto | reflexivity].
  - intros H. apply Hkeys in H. destruct H as [_ H]. discriminate.
Defined.

(** X6. When the template has outputs, the collect step is passed one
    argument, [dflow_vol_path], which is the output parameter of that name
    of the run step; the run template declares it with the host path
    [/tmp/{{pod.name}}], the collect template declares the input
    [dflow_vol_path] and mounts the volume at that path on [/mnt]. *)
Theorem collect_step_wiring (yaml_dump : Manifest -> string)
  (self : SlurmJobTemplate) (t : Template) :
  declares_paths t ->
  out_parameters (t_outputs t) <> [] \/ out_artifacts (t_outputs t) <> [] ->
  exists c run collect ct decl,
    render yaml_dump self t = Ok c
    /\ find_step c "slurm-run" = Some run
    /\ find_step c "slurm-collect" = Some collect
    /\ st_parameters collect
       = [("dflow_vol_path",
           ArgStepOutput
             (mkStepOutputParameter "slurm-run" "dflow_vol_path" decl))]
    /\ Dict.get (out_parameters (template_outputs (st_template run)))
         "dflow_vol_path" = Some decl
    /\ op_value decl = Some "/tmp/{{pod.name}}"
    /\ st_template collect = ShellOP ct
    /\ In "dflow_vol_path" (Dict.keys (in_parameters (sh_inputs ct)))
    /\ sh_volumes ct
       = [mkV1Volume "mnt" "{{inputs.parameters.dflow_vol_path}}"
            "DirectoryOrCreate"]
    /\ sh_mounts ct = [mkV1VolumeMount "mnt" "/mnt"].
Proof.
  intros Hpaths Hout.
  destruct (render_total yaml_dump self t Hpaths) as (c & Hr).
  destruct (proj2 (results_stanza_some self t) Hout) as [r Hres].
  exists c. eexists. eexists. eexists. eexists.
  split; [exact Hr|].
  split; [exact (render_run_step _ _ _ _ Hr)|].
  split; [exact (render_collect_step _ _ _ _ Hr Hout)|].
  split; [reflexivity|]. split.
  { cbn [st_template make_run_step template_outputs make_run_template
         sc_outputs out_parameters].
    rewrite Hres. reflexivity. }
  split; [reflexivity|]. split; [reflexivity|].
  split; [|split; reflexivity].
  apply in_keys_pass_dflow. left. simpl. auto.
Qed.

(** The collect step of [calc]. *)
Lemma collect_step_wiring_calc :
  declares_paths calc
  /\ (out_parameters (t_outputs calc) <> []
      \/ out_artifacts (t_outputs calc) <> [])
  /\ exists c collect,
       render dump_batch default_executor calc = Ok c
       /\ find_step c "slurm-collect" = Some collect
       /\ Dict.keys (st_parameters collect) = ["dflow_vol_path"].
Proof.
  assert (H : declares_paths calc).
  { unfold declares_paths. simpl. repeat constructor. discriminate. }
  assert (Hout : out_parameters (t_outputs calc) <> []
                 \/ out_artifacts (t_outputs calc) <> []).
  { right. simpl. discriminate. }
  split; [exact H|]. split; [exact Hout|].
  destruct (collect_step_wiring dump_batch default_executor calc H Hout)
    as (c & run & collect & ct & decl & Hr & _ & Hf & Hp & _).
  exists c, collect. split; [exact Hr|]. split; [exact Hf|].
  rewrite Hp. reflexivity.
Defined.

(** X7. When the template has input artifacts, the template of the
    prepare step takes the input artifacts of the original template as
    they are declared, and the step is passed, for each of their names and
    for no other, the input artifact that the pipeline declares under that
    name. *)
Theorem prepare_step_wiring (yaml_dump : Manifest -> string)
  (self : SlurmJobTemplate) (t : Template) :
  declares_paths t ->
  in_artifacts (t_inputs t) <> [] ->
  exists c prepare,
    render yaml_dump self t = Ok c
    /\ find_step c "slurm-prepare" = Some prepare
    /\ in_artifacts (template_inputs (st_template prepare))
       = in_artifacts (t_inputs t)
    /\ st_parameters prepare = []
    /\ (forall n, In n (Dict.keys (st_artifacts prepare))
                  <-> In n (Dict.keys (in_artifacts (t_inputs t))))
    /\ (forall n, In n (Dict.keys (in_artifacts (t_inputs t))) ->
                  Dict.get (st_artifacts prepare) n
                  = Some (mkInputArtifact (Some n) None)
                  /\ Dict.get (in_artifacts (steps_inputs c)) n
                     = Some (mkInputArtifact (Some n) None)).
Proof.
  intros Hpaths Hsome.
  destruct (render_total yaml_dump self t Hpaths) as (c & Hr).
  destruct (render_prepare_step _ _ _ _ Hr Hsome)
    as (pt & arts & Hpt & Harts & Hfind).
  destruct (render_interface _ _ _ _ Hr) as (_ & Hi & _).
  exists c. eexists. split; [exact Hr|]. split; [exact Hfind|].
  split; [|split; [reflexivity|split]].
  - simpl. unfold make_prepare_template in Hpt.
    destruct (prepare_script _ _); simpl in Hpt; [|discriminate].
    injection Hpt as <-. reflexivity.
  - intros n. simpl. rewrite (copy_each_keys _ _ _ _ n Harts). simpl. tauto.
  - intros n Hn.
    assert (Hdecl : Dict.get (in_artifacts (steps_inputs (declare_inputs t))) n
                    = Some (mkInputArtifact (Some n) None)).
    { simpl.
      apply (get_set_each (fun art_name => mkInputArtifact (Some art_name) None)).
      exact Hn. }
    split.
    + simpl. rewrite (copy_each_get _ _ _ _ n Harts) by (left; exact Hn).
      exact Hdecl.
    + rewrite Hi. exact Hdecl.
Qed.

(** The prepare step of [calc]. *)
Lemma prepare_step_wiring_calc :
  declares_paths calc
  /\ in_artifacts (t_inputs calc) <> []
  /\ exists c prepare,
       render dump_batch default_executor calc = Ok c
       /\ find_step c "slurm-prepare" = Some prepare
       /\ in_artifacts (template_inputs (st_template prepare))
          = in_artifacts (t_inputs calc).
Proof.
  assert (H : declares_paths calc).
  { unfold declares_paths. simpl. repeat constructor. discriminate. }
  assert (Hne : in_artifacts (t_inputs calc) <> []).
  { simpl. discriminate. }
  split; [exact H|]. split; [exact Hne|].
  destruct (prepare_step_wiring dump_batch default_executor calc H Hne)
    as (c & prepare & Hr & Hf & Ha & _).
  exists c, prepare. auto.
Defined.

(** X8. The run step is passed an argument for exactly the input
    parameters its template declares. Every input parameter of the
    original template is among them and receives the reference to the
    pipeline's input of its name, except [dflow_vol_path] when the
    template has input artifacts: that name then receives the output of
    the prepare step, whatever the caller passes to the pipeline. *)
Theorem run_step_arguments (yaml_dump : Manifest -> string)
  (self : SlurmJobTemplate) (t : Template) :
  declares_paths t ->
  exists c run,
    render yaml_dump self t = Ok c
    /\ find_step c "slurm-run" = Some run
    /\ (forall n, In n (Dict.keys (st_parameters run))
                  <-> In n (Dict.keys
                              (in_parameters
                                 (template_inputs (st_template run)))))
    /\ (forall n,
           In n (Dict.keys (in_parameters (t_inputs t))) ->
           In n (Dict.keys (st_parameters run))
           /\ Dict.get (st_parameters run) n
              = Some (ArgStr
                        (if String.eqb n "dflow_vol_path"
                            && Dict.truthy (in_artifacts (t_inputs t))
                         then "{{steps.slurm-prepare.outputs.parameters.dflow_vol_path}}"
                         else "{{inputs.parameters." ++ n ++ "}}"))).
Proof.
  intros Hpaths.
  destruct (render_total yaml_dump self t Hpaths) as (c & Hr).
  exists c. eexists. split; [exact Hr|].
  split; [exact (render_run_step _ _ _ _ Hr)|].
  cbn [st_parameters st_template make_run_step template_inputs
       make_run_template sc_inputs in_parameters].
  unfold run_parameters.
  destruct (Dict.truthy (in_artifacts (t_inputs t))); split.
  - intros n. rewrite !in_keys_set, in_keys_set_each. tauto.
  - intros n Hn. split.
    + rewrite in_keys_set, in_keys_set_each. auto.
    + destruct (String.eqb_spec n "dflow_vol_path") as [->|Hne]; simpl.
      * apply get_set_same.
      * rewrite get_set_other by congruence.
        apply (get_set_each (fun k => ArgStr (input_parameter_ref k))).
        exact Hn.
  - intros n. rewrite in_keys_set_each. tauto.
  - intros n Hn. split.
    + rewrite in_keys_set_each. exact Hn.
    + rewrite andb_false_r.
      apply (get_set_each (fun k => ArgStr (input_parameter_ref k))).
      exact Hn.
Qed.

(** The run step of [tagged] is passed its two parameters and the staged
    volume path. *)
Lemma run_step_arguments_tagged :
  declares_paths tagged
  /\ exists c run,
       render dump_batch default_executor tagged = Ok c
       /\ find_step c "slurm-run" = Some run
       /\ Dict.get (st_parameters run) "msg"
          = Some (ArgStr "{{inputs.parameters.msg}}").
Proof.
  assert (H : declares_paths tagged).
  { unfold declares_paths. simpl. repeat constructor. discriminate. }
  split; [exact H|].
  destruct (run_step_arguments dump_batch default_executor tagged H)
    as (c & run & Hr & Hf & _ & Hargs).
  exists c, run. split; [exact Hr|]. split; [exact Hf|].
  destruct (Hargs "msg") as [_ Hget].
  { simpl. auto. }
  exact Hget.
Defined.

(** ** The staging scripts *)

Lemma fold_append_all (l : list string) (acc : string) :
  fold_left String.append l acc = acc ++ String.concat EmptyString l.
Proof.
  revert acc. induction l as [|x l IH]; intros acc; simpl.
  - symmetry. apply append_empty_r.
  - rewrite IH, append_assoc. destruct l; simpl.
    + rewrite append_empty_r. reflexivity.
    + reflexivity.
Qed.

Lemma concat_empty_cons (x : string) (l : list string) :
  String.concat EmptyString (x :: l) = x ++ String.concat EmptyString l.
Proof.
  destruct l; simpl; [rewrite append_empty_r|]; reflexivity.
Qed.

Lemma concat_empty_app (l1 l2 : list string) :
  String.concat EmptyString (l1 ++ l2)
  = String.concat EmptyString l1 ++ String.concat EmptyString l2.
Proof.
  assert (as_fold : forall l,
             String.concat EmptyString l
             = fold_left String.append l EmptyString).
  { intros l. rewrite fold_append_all. reflexivity. }
  rewrite (as_fold (l1 ++ l2)%list), fold_left_app, !fold_append_all.
  reflexivity.
Qed.

(** X9. The collect script is made of one line for each output artifact,
    in the order of the dictionary, followed by one line for each output
    parameter that is read from a path; an output parameter with a literal
    value adds nothing. Each line makes the directory of the path and
    copies [/mnt/workdir/<path>] to the path. *)
Theorem collect_script_lines (outputs : Outputs) :
  collect_script outputs
  = String.concat EmptyString
      (List.app
         (map (fun art =>
                 "mkdir -p `dirname " ++ Py.str_opt (oa_path art)
                 ++ "` && cp -r /mnt/workdir/" ++ Py.str_opt (oa_path art)
                 ++ " " ++ Py.str_opt (oa_path art) ++ Py.nl)
            (Dict.values (out_artifacts outputs)))
         (flat_map (fun par =>
                      match op_value_from_path par with
                      | Some p =>
                          ["mkdir -p `dirname " ++ p
                           ++ "` && cp -r /mnt/workdir/" ++ p
                           ++ " " ++ p ++ Py.nl]
                      | None => []
                      end)
            (Dict.values (out_parameters outputs)))).
Proof.
  change (collect_script outputs
          = String.concat EmptyString
              (List.app
                 (map (fun art => collect_line (Py.str_opt (oa_path art)))
                    (Dict.values (out_artifacts outputs)))
                 (flat_map (fun par =>
                              match op_value_from_path par with
                              | Some p => [collect_line p]
                              | None => []
                              end)
                    (Dict.values (out_parameters outputs))))).
  unfold collect_script. rewrite concat_empty_app.
  generalize (Dict.values (out_parameters outputs)) as pars.
  generalize (Dict.values (out_artifacts outputs)) as arts.
  intros arts pars.
  assert (Harts : forall acc,
             fold_left (fun script art =>
                          script ++ collect_line (Py.str_opt (oa_path art)))
               arts acc
             = acc ++ String.concat EmptyString
                        (map (fun art => collect_line (Py.str_opt (oa_path art)))
                           arts)).
  { induction arts as [|a arts IH]; intros acc; cbn [fold_left map].
    - symmetry. apply append_empty_r.
    - rewrite IH, append_assoc, concat_empty_cons. reflexivity. }
  rewrite Harts.
  match goal with
  | |- context [EmptyString ++ ?x] => change (EmptyString ++ x) with x
  end.
  generalize (String.concat EmptyString
                (map (fun art => collect_line (Py.str_opt (oa_path art))) arts)).
  intros acc. revert acc.
  induction pars as [|p pars IH]; intros acc; cbn [fold_left flat_map].
  - symmetry. apply append_empty_r.
  - rewrite IH. destruct (op_value_from_path p) as [path|]; cbn [app].
    + rewrite append_assoc, concat_empty_cons. reflexivity.
    + reflexivity.
Qed.

(** X10. When the input artifacts declare the paths [paths], the prepare
    template is built, on the image of the executor, with the host path
    [/tmp/{{pod.name}}] mounted on [/workdir], and its script is made of
    two lines for each artifact, in the order of the dictionary: one that
    makes [/workdir/<directory of the path>] and one that copies the path
    to [/workdir/<path>]. *)
Theorem prepare_script_lines (self : SlurmJobTemplate) (t : Template)
  (new_template : Steps) (paths : list string) :
  map ia_path (Dict.values (in_artifacts (t_inputs t))) = map Some paths ->
  exists pt,
    make_prepare_template self t new_template = Ok pt
    /\ sh_script pt
       = String.concat EmptyString
           (map (fun p =>
                   "mkdir -p /workdir/" ++ Py.dirname p ++ Py.nl
                   ++ "cp -r " ++ p ++ " /workdir/" ++ p ++ Py.nl)
              paths)
    /\ sh_image pt = sjt_prepare_image self
    /\ sh_volumes pt
       = [mkV1Volume "workdir" "/tmp/{{pod.name}}" "DirectoryOrCreate"]
    /\ sh_mounts pt = [mkV1VolumeMount "workdir" "/workdir"].
Proof.
  intros Hpaths. unfold make_prepare_template.
  assert (Hscript : forall arts ps acc,
             map ia_path arts = map Some ps ->
             prepare_script acc arts
             = Ok (acc ++ String.concat EmptyString
                            (map (fun p =>
                                    "mkdir -p /workdir/" ++ Py.dirname p
                                    ++ Py.nl ++ "cp -r " ++ p ++ " /workdir/"
                                    ++ p ++ Py.nl) ps))).
  { clear. intros arts. induction arts as [|a arts IH]; intros ps acc H.
    - destruct ps; [|discriminate]. simpl. rewrite append_empty_r.
      reflexivity.
    - destruct ps as [|p ps]; [discriminate|].
      cbn [map] in H. injection H as Ha Hrest.
      cbn [prepare_script map]. unfold prepare_lines. rewrite Ha.
      cbn [bind]. rewrite (IH ps _ Hrest), append_assoc, concat_empty_cons.
      reflexivity. }
  rewrite (Hscript _ paths EmptyString Hpaths). cbn [bind].
  eexists. split; [reflexivity|]. repeat split.
Qed.

(** The prepare script of [calc]. *)
Lemma prepare_script_lines_calc :
  exists pt,
    make_prepare_template default_executor calc (declare_inputs calc) = Ok pt
    /\ sh_script pt
       = "mkdir -p /workdir//in" ++ Py.nl
         ++ "cp -r /in/input.json /workdir//in/input.json" ++ Py.nl.
Proof.
  destruct (prepare_script_lines default_executor calc (declare_inputs calc)
              ["/in/input.json"] eq_refl) as (pt & Hpt & Hs & _).
  exists pt. split; [exact Hpt|]. rewrite Hs. reflexivity.
Defined.

(** ** The stored header *)

Lemma space_before_hash_skip (a : ascii) (s : list ascii) :
  a <> " "%char -> space_before_hash (a :: s) = space_before_hash s.
Proof.
  intros Ha. apply Ascii.eqb_neq in Ha. simpl. rewrite Ha.
  destruct s; reflexivity.
Qed.

Lemma space_before_hash_spaces (n : nat) (c : ascii) (s : list ascii) :
  c <> "#"%char ->
  space_before_hash (repeat " "%char n ++ c :: s)
  = space_before_hash (c :: s).
Proof.
  intros Hc. apply Ascii.eqb_neq in Hc.
  induction n as [|n IH]; [reflexivity|].
  cbn [repeat app]. cbn [space_before_hash].
  destruct n as [|n].
  - cbn [repeat app]. rewrite Hc. simpl. exact IH.
  - cbn [repeat app] in *. simpl (Ascii.eqb " " "#"). rewrite andb_false_r.
    exact IH.
Qed.

Lemma space_before_hash_only_spaces (n : nat) :
  space_before_hash (repeat " "%char n) = false.
Proof.
  induction n as [|n IH]; [reflexivity|].
  cbn [repeat space_before_hash]. destruct n as [|n]; [reflexivity|].
  cbn [repeat] in *. simpl (Ascii.eqb " " "#"). rewrite andb_false_r.
  exact IH.
Qed.

(** After the deletion no space stands before a [#]. *)
Lemma delete_leaves_no_space_before_hash (s : list ascii) (n : nat) :
  space_before_hash (delete_space_runs_before_hash n s) = false.
Proof.
  revert n. induction s as [|c s IH]; intros n.
  - apply space_before_hash_only_spaces.
  - cbn [delete_space_runs_before_hash].
    destruct (Ascii.eqb_spec c " "%char) as [->|Hsp]; [apply IH|].
    destruct (Ascii.eqb_spec c "#"%char) as [->|Hh].
    + rewrite space_before_hash_skip by discriminate. apply IH.
    + rewrite space_before_hash_spaces by exact Hh.
      rewrite space_before_hash_skip by exact Hsp. apply IH.
Qed.

(** A text in which no space stands before a [#] is left as it is. *)
Lemma delete_keeps_clean_text (s : list ascii) (n : nat) :
  space_before_hash (repeat " "%char n ++ s) = false ->
  delete_space_runs_before_hash n s = (repeat " "%char n ++ s)%list.
Proof.
  revert n. induction s as [|c s IH]; intros n H.
  - rewrite app_nil_r. reflexivity.
  - cbn [delete_space_runs_before_hash].
    destruct (Ascii.eqb_spec c " "%char) as [->|Hsp].
    + assert (E : (repeat " "%char n ++ " "%char :: s
                   = repeat " "%char (S n) ++ s)%list).
      { change (" "%char :: s) with ([" "%char] ++ s)%list.
        rewrite app_assoc, <- repeat_cons. reflexivity. }
      rewrite E in *. apply IH, H.
    + destruct (Ascii.eqb_spec c "#"%char) as [->|Hh].
      * destruct n as [|n].
        -- cbn [repeat app] in *.
           rewrite space_before_hash_skip in H by discriminate.
           rewrite (IH 0%nat) by exact H. reflexivity.
        -- exfalso. clear IH. induction n as [|n IHn].
           ++ cbn in H. discriminate.
           ++ apply IHn. cbn [repeat app] in *.
              cbn [space_before_hash] in H.
              simpl (Ascii.eqb " " "#") in H. rewrite andb_false_r in H.
              exact H.
      * rewrite space_before_hash_spaces in H by exact Hh.
        rewrite space_before_hash_skip in H by exact Hsp.
        rewrite (IH 0%nat) by exact H. reflexivity.
Qed.

Lemma prefix_space_hash (a : ascii) (s : string) :
  prefix " #" (String a s)
  = match s with
    | String b _ => Ascii.eqb a " "%char && Ascii.eqb b "#"%char
    | EmptyString => false
    end.
Proof.
  cbn [prefix]. destruct (ascii_dec " " a) as [<-|Ha].
  - destruct s as [|b r]; [reflexivity|]. cbn [prefix].
    destruct (ascii_dec "#" b) as [<-|Hb]; [destruct r; reflexivity|].
    apply not_eq_sym, Ascii.eqb_neq in Hb. rewrite Hb. reflexivity.
  - apply not_eq_sym, Ascii.eqb_neq in Ha. rewrite Ha.
    destruct s; reflexivity.
Qed.

(** [" #" in s], on the characters of [s]. *)
Lemma contains_space_hash (s : string) :
  Py.contains " #" s = space_before_hash (list_ascii_of_string s).
Proof.
  induction s as [|a s IH]; [reflexivity|].
  cbn [Py.contains list_ascii_of_string]. rewrite IH, prefix_space_hash.
  destruct s as [|b r]; reflexivity.
Qed.

Lemma normalize_header_chars (supplied : string) :
  list_ascii_of_string (normalize_header supplied)
  = delete_space_runs_before_hash 0 (list_ascii_of_string supplied).
Proof.
  unfold normalize_header.
  rewrite list_ascii_of_string_of_list_ascii.
  apply (re_sub_deletes_runs _ 0).
Qed.

Lemma normalize_header_clean (supplied : string) :
  Py.contains " #" (normalize_header supplied) = false.
Proof.
  rewrite contains_space_hash, normalize_header_chars.
  apply delete_leaves_no_space_before_hash.
Qed.

(** X11. In the header that the constructor stores, no space stands
    immediately before a [#], whatever header was supplied. *)
Theorem stored_header_clean
  (on_host : string) (on_port : Z) (user : string) (pass : option string)
  (key_file : option string) (dir : string)
  (cmd remote_cmd : CommandArg) (img : string)
  (map_tmp : bool) (docker : option string)
  (retries : Z) (supplied : string) (every : Z) (volume : option PVC) :
  Py.contains " #"
    (header (SlurmRemoteExecutor_init on_host on_port user pass key_file dir
               cmd remote_cmd img map_tmp docker retries supplied every
               volume))
  = false.
Proof. apply normalize_header_clean. Qed.

(** X12. The constructor stores the supplied header unchanged exactly
    when no space stands immediately before a [#] in it; normalizing a
    stored header again therefore changes nothing. *)
Theorem header_unchanged_iff_clean (supplied : string) :
  (normalize_header supplied = supplied
   <-> Py.contains " #" supplied = false)
  /\ normalize_header (normalize_header supplied) = normalize_header supplied.
Proof.
  assert (Hfix : forall h,
             Py.contains " #" h = false -> normalize_header h = h).
  { intros h Hh. rewrite contains_space_hash in Hh.
    rewrite <- (string_of_list_ascii_of_string (normalize_header h)).
    rewrite normalize_header_chars.
    rewrite (delete_keeps_clean_text _ 0) by exact Hh.
    apply string_of_list_ascii_of_string. }
  split; [split|].
  - intros H. rewrite <- H. apply normalize_header_clean.
  - apply Hfix.
  - apply Hfix, normalize_header_clean.
Qed.

(** A header without a space before [#] is stored as it is. *)
Lemma header_unchanged_shebang :
  Py.contains " #" "#!/bin/bash" = false
  /\ normalize_header "#!/bin/bash" = "#!/bin/bash".
Proof.
  assert (H : Py.contains " #" "#!/bin/bash" = false) by reflexivity.
  split; [exact H|].
  exact (proj2 (proj1 (header_unchanged_iff_clean "#!/bin/bash")) H).
Defined.

Lemma without_spaces_repeat (n : nat) (s : list ascii) :
  without_spaces (repeat " "%char n ++ s) = without_spaces s.
Proof. induction n as [|n IH]; simpl; auto. Qed.

(** X13. Normalizing the header deletes spaces and nothing else: the
    characters other than spaces are the same, in the same order, before
    and after, and the header does not get longer. *)
Theorem header_loses_only_spaces (supplied : string) :
  without_spaces (list_ascii_of_string (normalize_header supplied))
  = without_spaces (list_ascii_of_string supplied)
  /\ (String.length (normalize_header supplied)
      <= String.length supplied)%nat.
Proof.
  assert (Hlen : forall x, String.length x
                           = List.length (list_ascii_of_string x)).
  { induction x as [|a x IH]; simpl; auto. }
  rewrite !Hlen, normalize_header_chars.
  generalize (list_ascii_of_string supplied) as s. intros s.
  assert (H : forall n,
             without_spaces (delete_space_runs_before_hash n s)
             = without_spaces s
             /\ (List.length (delete_space_runs_before_hash n s)
                 <= n + List.length s)%nat).
  { induction s as [|c s IH]; intros n.
    - simpl. rewrite <- (app_nil_r (repeat _ n)), without_spaces_repeat.
      rewrite app_nil_r, repeat_length. split; [reflexivity | lia].
    - cbn [delete_space_runs_before_hash].
      destruct (Ascii.eqb_spec c " "%char) as [->|Hsp].
      + destruct (IH (S n)) as [H1 H2]. split; [exact H1 | simpl; lia].
      + destruct (IH 0%nat) as [H1 H2].
        destruct (Ascii.eqb_spec c "#"%char) as [->|Hh].
        * split; [simpl; rewrite H1; reflexivity | simpl; lia].
        * rewrite without_spaces_repeat. split.
          -- unfold without_spaces in *. simpl. rewrite H1. reflexivity.
          -- rewrite length_app, repeat_length. simpl. lia. }
  destruct (H 0%nat) as [H1 H2]. split; [exact H1 | exact H2].
Qed.

(** ** The submission script as a whole *)

(** X14. The script is the command that writes [slurm.sh], the upload
    followed by [|| exit 1], one [echo '<line>' >> param.yaml] command for
    each line of the parameter file, in order, and the submission followed
    by [|| exit 1]: writing the lines read back from the script gives the
    script again. *)
Theorem run_script_layout
  (upload : SlurmRemoteExecutor -> string -> string -> string)
  (self : SlurmRemoteExecutor) (image : string) (remote_command : list string) :
  run upload self image remote_command
  = write_slurm_sh self image remote_command
    ++ upload self "slurm.sh" (workdir self ++ "/slurm.sh")
    ++ " || exit 1" ++ Py.nl
    ++ String.concat EmptyString
         (map (fun line => "echo '" ++ line ++ "' >> param.yaml" ++ Py.nl)
            (param_file upload self image remote_command))
    ++ "./bin/slurm param.yaml || exit 1" ++ Py.nl.
Proof.
  change (fun line => "echo '" ++ line ++ "' >> param.yaml" ++ Py.nl)
    with echo_param.
  rewrite param_file_lines. unfold run, run_appends, upload_slurm_sh.
  rewrite fold_append_all.
  match goal with
  | |- context [EmptyString ++ ?x] => change (EmptyString ++ x) with x
  end.
  destruct (pvc self), (password self); cbn [app map];
    rewrite !concat_empty_cons; cbn [String.concat];
    rewrite ?append_empty_r, !append_assoc; reflexivity.
Qed.

(** ** The declarations of the pipeline *)

Lemma get_some_in_keys {V : Type} (d : Dict.t V) (k : string) (v : V) :
  Dict.get d k = Some v -> In k (Dict.keys d).
Proof.
  induction d as [|[k0 v0] d IH]; simpl; [discriminate|].
  destruct (String.eqb_spec k0 k) as [->|Hne]; auto.
Qed.

(** X17. The pipeline declares each input parameter of the original
    template by its name alone, without a value; the declaration of the
    original, with the value it may carry, is kept on the run template,
    unless the name is [dflow_vol_path] and the template has input
    artifacts. *)
Theorem input_parameter_declarations (yaml_dump : Manifest -> string)
  (self : SlurmJobTemplate) (t : Template) :
  declares_paths t ->
  exists c run,
    render yaml_dump self t = Ok c
    /\ find_step c "slurm-run" = Some run
    /\ forall n decl,
         Dict.get (in_parameters (t_inputs t)) n = Some decl ->
         Dict.get (in_parameters (steps_inputs c)) n
         = Some (mkInputParameter (Some n) None)
         /\ Dict.get (in_parameters (template_inputs (st_template run))) n
            = Some (if String.eqb n "dflow_vol_path"
                       && Dict.truthy (in_artifacts (t_inputs t))
                    then mkInputParameter None None
                    else decl).
Proof.
  intros Hpaths.
  destruct (render_total yaml_dump self t Hpaths) as (c & Hr).
  destruct (render_interface _ _ _ _ Hr) as (_ & Hi & _).
  exists c. eexists. split; [exact Hr|].
  split; [exact (render_run_step _ _ _ _ Hr)|].
  intros n decl Hdecl. split.
  - rewrite Hi. simpl.
    apply (get_set_each (fun par_name => mkInputParameter (Some par_name) None)).
    eapply get_some_in_keys, Hdecl.
  - cbn [st_template make_run_step template_inputs make_run_template
         sc_inputs in_parameters].
    destruct (Dict.truthy (in_artifacts (t_inputs t))).
    + destruct (String.eqb_spec n "dflow_vol_path") as [->|Hne]; simpl.
      * apply get_set_same.
      * rewrite get_set_other by congruence. exact Hdecl.
    + rewrite andb_false_r. exact Hdecl.
Qed.

(** The parameter [msg] of [greet] on the pipeline and on the run
    template. *)
Lemma input_parameter_declarations_greet :
  declares_paths greet
  /\ exists c run,
       render dump_batch default_executor greet = Ok c
       /\ find_step c "slurm-run" = Some run
       /\ Dict.get (in_parameters (steps_inputs c)) "msg"
          = Some (mkInputParameter (Some "msg") None).
Proof.
  assert (H : declares_paths greet).
  { unfold declares_paths. simpl. constructor. }
  split; [exact H|].
  destruct (input_parameter_declarations dump_batch default_executor greet H)
    as (c & run & Hr & Hf & Hdecl).
  exists c, run. split; [exact Hr|]. split; [exact Hf|].
  destruct (Hdecl "msg" (mkInputParameter (Some "msg") None) eq_refl)
    as [Hc _].
  exact Hc.
Defined.

(** The names of [survey], two in each dictionary, keep their order. *)
Lemma render_keeps_name_order_survey :
  exists c,
    render dump_batch default_executor survey = Ok c
    /\ Dict.keys (in_parameters (steps_inputs c)) = ["seed"; "count"]
    /\ Dict.keys (in_artifacts (steps_inputs c)) = ["mesh"; "config"]
    /\ Dict.keys (out_parameters (steps_outputs c)) = ["energy"; "steps"]
    /\ Dict.keys (out_artifacts (steps_outputs c)) = ["log"; "dump"].
Proof.
  eexists. split; [reflexivity|].
  match goal with
  | |- Dict.keys (in_parameters (steps_inputs ?c)) = _ /\ _ =>
      apply (render_keeps_name_order dump_batch default_executor survey c)
  end.
  - reflexivity.
  - unfold Dict.wf. simpl. repeat constructor; simpl; intuition discriminate.
  - unfold Dict.wf. simpl. repeat constructor; simpl; intuition discriminate.
  - unfold Dict.wf. simpl. repeat constructor; simpl; intuition discriminate.
  - unfold Dict.wf. simpl. repeat constructor; simpl; intuition discriminate.
Defined.

(** * The submission script under the shell *)

(** ** Quotes and line feeds *)















(** ** The commands of the script, one by one *)







(** ** The script of [run], command by command *)














(** ** Claims on [SlurmRemoteExecutor.run] *)


(** On [sly_user] the shell runs every command of the script, the added
    one among them. *)
Lemma sly_user_script_completes :
  exists ran,
    sh (fun _ => false) (run cp_upload sly_user "image" ["bash"])
    = Completed ran
    /\ In "echo 'password: hunter2' >> param.yaml" ran.
Proof. eexists. split; [vm_compute; reflexivity|]. simpl. tauto. Qed.

(** A line feed in the user name is enough: what follows it is a line of
    its own in the parameter file. *)
Lemma password_line_after_line_feed :
  script_param_lines
    (run cp_upload
       (SlurmRemoteExecutor_init "login.cluster" 22
          ("u" ++ Py.nl ++ "password: hunter2") None None "work"
          CmdNone CmdNone "dptechnology/dflow-extender" true None (-1)
          "#!/bin/bash" 3 None)
       "image" ["bash"])
  = Some [ "jobIdFile: /tmp/job_id.txt"; "workdir: work";
           "scriptFile: slurm.sh"; "interval: 3"; "host: login.cluster";
           "port: 22"; "username: u"; "password: hunter2" ].
Proof. vm_compute. reflexivity. Qed.





(** A header with an apostrophe closes the string of the first command
    too early: the shell runs what is left of that command, meets a string
    that never ends, and leaves with status 2 before the upload. *)
Lemma apostrophe_in_header_stops_script :
  sh (fun _ => false)
    (run cp_upload
       (SlurmRemoteExecutor_init "login.cluster" 22 "root" None None "work"
          CmdNone CmdNone "dptechnology/dflow-extender" false None (-1)
          "# don't" 3 None)
       "image" ["bash"])
  = Exited 2 ["echo '# don't"].
Proof. vm_compute. reflexivity. Qed.


